(** * Exchange-rate cache of app/main.py: model and properties

    A shallow embedding of [CryptoRatesAPI] (the cache around the upstream
    call, and the transform of the upstream payload) and of the three Flask
    handlers that call it ([index], [api_rates], [health_check]).

    Modelling conventions.
    - Python dicts keep insertion order, so a dict is an association list
      with [Dict.set] updating in place or appending.
    - Numbers (parsed JSON numbers, [time.time()]) are the rationals they
      denote, compared exactly.  NaN and the infinities, which
      [json.loads] accepts, have no counterpart here: what is proved of
      the sort is proved for values that are numbers.
    - The age of line 49, [current_time - self.last_fetch], is computed
      exactly.  The binary64 subtraction of the code agrees with it when
      the difference is representable (as it is for two clock readings
      within a factor of two of each other, and while [last_fetch] is 0)
      and can differ from it by a rounding otherwise; properties of a
      cache hit are therefore stated over the test of lines 48-49 itself
      ([fresh]).
    - The upstream payload is a JSON object.  The entries of its ['rates']
      mapping are objects whose optional fields carry the types of the data
      model (name, unit, type: strings; value: a number); an absent field is
      [None].  A field that is present with a value of another type, and
      an entry that is not an object, have no counterpart here.
    - The body of a response is taken as already decoded: [Response] carries
      what [response.json()] yields.
    - Everything the code reads from outside (the clock, the upstream reply,
      the environment) is an argument: the record [env].
    - Log lines and the latency histogram are not modelled. *)

From Stdlib Require Import List String Ascii ZArith QArith Bool Lia Lqa.
From Stdlib Require Import Permutation Sorted DecimalString.
Import ListNotations.

Local Open Scope list_scope.
Local Open Scope string_scope.

(** ** Python dicts *)

Module Dict.

Section Ops.
Context {V : Type}.

Definition t := list (string * V).

(** [d.get(k)] *)
Fixpoint get (k : string) (d : t) : option V :=
  match d with
  | [] => None
  | (k', v) :: d' => if String.eqb k k' then Some v else get k d'
  end.

(** [k in d] *)
Definition contains (k : string) (d : t) : bool :=
  match get k d with Some _ => true | None => false end.

(** [d[k] = v]: an existing key keeps its position *)
Fixpoint set (k : string) (v : V) (d : t) : t :=
  match d with
  | [] => [(k, v)]
  | (k', v') :: d' =>
      if String.eqb k k' then (k, v) :: d' else (k', v') :: set k v d'
  end.

(** [d.items()], [d.keys()], [len(d)] *)
Definition items (d : t) : list (string * V) := d.
Definition keys (d : t) : list string := map fst d.
Definition len (d : t) : Z := Z.of_nat (List.length d).

(** [dict(pairs)] *)
Definition of_items (kvs : list (string * V)) : t :=
  fold_left (fun acc kv => set (fst kv) (snd kv) acc) kvs [].

(** truth value of a dict: empty is false *)
Definition truthy (d : t) : bool :=
  match d with [] => false | _ :: _ => true end.

(** A Python dict holds each key once. *)
Fixpoint wf (d : t) : bool :=
  match d with
  | [] => true
  | (k, _) :: d' => negb (contains k d') && wf d'
  end.
End Ops.

Arguments t : clear implicits.

End Dict.

(** ** Data *)

(** An entry of the upstream ['rates'] mapping. *)
Record raw_rate := {
  raw_name : option string;
  raw_unit : option string;
  raw_value : option Q;
  raw_type : option string
}.

Local Unset Elimination Schemes.

(** A value of the upstream JSON object, as [response.json()] gives it. *)
Inductive jval :=
| JNull                               (* None *)
| JBool (b : bool)                    (* bool *)
| JInt (n : Z)                        (* int *)
| JFloat (q : Q)                      (* float *)
| JStr (s : string)                   (* str *)
| JArr (items : list jval)            (* list *)
| JRates (entries : Dict.t raw_rate). (* dict of rate entries *)

Local Set Elimination Schemes.

(** [type(v).__name__] *)
Definition type_name (v : jval) : string :=
  match v with
  | JNull => "NoneType"
  | JBool _ => "bool"
  | JInt _ => "int"
  | JFloat _ => "float"
  | JStr _ => "str"
  | JArr _ => "list"
  | JRates _ => "dict"
  end.

Definition raw_data := Dict.t jval.

(** The dict built at lines 89-94: keys 'name', 'unit', 'value', 'type'. *)
Record rate := {
  name : string;
  unit_ : string;
  value : Q;
  type_ : string
}.

(** Values stored in the dicts that [get_exchange_rates] returns. *)
Inductive pyval :=
| PStr (s : string)
| PInt (n : Z)
| PRates (rates : Dict.t rate).

Definition pydict := Dict.t pyval.

(** Exceptions.  The first three are subclasses of
    [requests.exceptions.RequestException]. *)
Inductive exn :=
| ConnectionError (msg : string)
| ConnectTimeout (msg : string)
| HTTPError (msg : string)
| ValueError (msg : string)
| AttributeError (msg : string)
| TypeError (msg : string)
| KeyError (msg : string).

Definition is_RequestException (e : exn) : bool :=
  match e with
  | ConnectionError _ | ConnectTimeout _ | HTTPError _ => true
  | ValueError _ | AttributeError _ | TypeError _ | KeyError _ => false
  end.

(** [str(e)] *)
Definition str (e : exn) : string :=
  match e with
  | ConnectionError m | ConnectTimeout m | HTTPError m
  | ValueError m | AttributeError m | TypeError m | KeyError m => m
  end.

(** What the upstream does with one request. *)
Inductive upstream :=
| Unreachable (msg : string)
| NoAnswerInTime (msg : string)
| Response (status_code : Z) (reason : string) (json : raw_data).

(** What one call reads from outside. *)
Record env := {
  time_time : Q;            (* time.time() *)
  datetime_now : string;    (* datetime.now().isoformat() in the transform *)
  upstream_reply : upstream; (* the reply to a request, if one is sent *)
  handler_now : string;     (* datetime.now().isoformat() in the handler *)
  APP_VERSION : option string (* os.getenv('APP_VERSION') *)
}.

(** ** State *)

Record CryptoRatesAPI := {
  base_url : string;
  timeout : Z;
  cache_duration : Z;
  last_fetch : Q;
  cached_data : option pydict
}.

(** The labelled counter [API_CALLS]. *)
Record api_calls := {
  calls_success : nat;
  calls_error : nat
}.

Record world := {
  crypto_api : CryptoRatesAPI;
  API_CALLS : api_calls;
  REQUEST_COUNT : list (string * string * nat);
  requests_sent : nat  (* requests issued to the upstream so far *)
}.

(** [CryptoRatesAPI.__init__], with the environment's [API_TIMEOUT] and
    [CACHE_DURATION] already read. *)
Definition init (api_timeout cache_dur : option Z) : CryptoRatesAPI :=
  {| base_url := "https://api.coingecko.com/api/v3";
     timeout := match api_timeout with Some t => t | None => 10%Z end;
     cache_duration := match cache_dur with Some d => d | None => 300%Z end;
     last_fetch := 0%Q;
     cached_data := None |}.

Definition init_world (api_timeout cache_dur : option Z) : world :=
  {| crypto_api := init api_timeout cache_dur;
     API_CALLS := {| calls_success := 0; calls_error := 0 |};
     REQUEST_COUNT := [];
     requests_sent := 0 |}.

(** ** A monad for state and exceptions *)

Inductive outcome (A : Type) :=
| Returned (a : A)
| Raised (e : exn).
Arguments Returned {A} a.
Arguments Raised {A} e.

Definition M (A : Type) := env -> world -> outcome A * world.

Definition ret {A} (a : A) : M A := fun _ w => (Returned a, w).

Definition bind {A B} (m : M A) (k : A -> M B) : M B :=
  fun e w =>
    match m e w with
    | (Returned a, w') => k a e w'
    | (Raised x, w') => (Raised x, w')
    end.

Definition raise {A} (x : exn) : M A := fun _ w => (Raised x, w).

(** [try: body  except <class> as e: handler e] *)
Definition try_except {A} (body : M A) (catches : exn -> bool)
                      (handler : exn -> M A) : M A :=
  fun e w =>
    match body e w with
    | (Returned a, w') => (Returned a, w')
    | (Raised x, w') =>
        if catches x then handler x e w' else (Raised x, w')
    end.

Definition ask : M env := fun e w => (Returned e, w).
Definition get_world : M world := fun _ w => (Returned w, w).
Definition put_world (w : world) : M unit := fun _ _ => (Returned tt, w).

Declare Scope py_scope.
Delimit Scope py_scope with py.
Notation "x <- m ;; k" := (bind m (fun x => k))
  (at level 61, m at next level, right associativity) : py_scope.
Notation "m ;;; k" := (bind m (fun _ => k))
  (at level 61, right associativity) : py_scope.
Local Open Scope py_scope.

Definition get_self : M CryptoRatesAPI :=
  w <- get_world ;; ret (crypto_api w).

Definition set_self (f : CryptoRatesAPI -> CryptoRatesAPI) : M unit :=
  w <- get_world ;;
  put_world {| crypto_api := f (crypto_api w);
               API_CALLS := API_CALLS w;
               REQUEST_COUNT := REQUEST_COUNT w;
               requests_sent := requests_sent w |}.

Definition set_cached_data (d : pydict) : M unit :=
  set_self (fun s => {| base_url := base_url s; timeout := timeout s;
                        cache_duration := cache_duration s;
                        last_fetch := last_fetch s;
                        cached_data := Some d |}).

Definition set_last_fetch (t : Q) : M unit :=
  set_self (fun s => {| base_url := base_url s; timeout := timeout s;
                        cache_duration := cache_duration s;
                        last_fetch := t;
                        cached_data := cached_data s |}).

(** [API_CALLS.labels(status=...).inc()] *)
Definition API_CALLS_inc (status : string) : M unit :=
  w <- get_world ;;
  let c := API_CALLS w in
  put_world {| crypto_api := crypto_api w;
               API_CALLS :=
                 if String.eqb status "success"
                 then {| calls_success := S (calls_success c);
                         calls_error := calls_error c |}
                 else {| calls_success := calls_success c;
                         calls_error := S (calls_error c) |};
               REQUEST_COUNT := REQUEST_COUNT w;
               requests_sent := requests_sent w |}.

Fixpoint counter_inc (m ep : string) (c : list (string * string * nat))
  : list (string * string * nat) :=
  match c with
  | [] => [(m, ep, 1%nat)]
  | (m', ep', n) :: c' =>
      if String.eqb m m' && String.eqb ep ep'
      then (m', ep', S n) :: c'
      else (m', ep', n) :: counter_inc m ep c'
  end.

(** [REQUEST_COUNT.labels(method=..., endpoint=...).inc()] *)
Definition REQUEST_COUNT_inc (m ep : string) : M unit :=
  w <- get_world ;;
  put_world {| crypto_api := crypto_api w;
               API_CALLS := API_CALLS w;
               REQUEST_COUNT := counter_inc m ep (REQUEST_COUNT w);
               requests_sent := requests_sent w |}.

(** ** The [requests] library, as far as the code uses it *)

Definition string_of_Z (z : Z) : string := NilZero.string_of_int (Z.to_int z).

(** [requests.get(url, timeout=...)]: one request goes out; a connection
    failure or a timeout raises. *)
Definition requests_get (url : string) (tmo : Z) : M upstream :=
  w <- get_world ;;
  put_world {| crypto_api := crypto_api w;
               API_CALLS := API_CALLS w;
               REQUEST_COUNT := REQUEST_COUNT w;
               requests_sent := S (requests_sent w) |} ;;;
  e <- ask ;;
  match upstream_reply e with
  | Unreachable msg => raise (ConnectionError msg)
  | NoAnswerInTime msg => raise (ConnectTimeout msg)
  | Response c r j => ret (Response c r j)
  end.

(** [response.raise_for_status()]: HTTPError for 4xx and 5xx. *)
Definition raise_for_status (url : string) (r : upstream) : M unit :=
  match r with
  | Response c reason _ =>
      if ((400 <=? c) && (c <? 500))%Z then
        raise (HTTPError (string_of_Z c ++ " Client Error: " ++ reason
                          ++ " for url: " ++ url))
      else if ((500 <=? c) && (c <? 600))%Z then
        raise (HTTPError (string_of_Z c ++ " Server Error: " ++ reason
                          ++ " for url: " ++ url))
      else ret tt
  | _ => ret tt
  end.

(** [response.json()] *)
Definition response_json (r : upstream) : M raw_data :=
  match r with
  | Response _ _ j => ret j
  | _ => ret []
  end.

(** ** [sorted(..., key=..., reverse=True)]

    The built-in sort is stable, also with [reverse=True]: the result is in
    descending key order and elements with equal keys keep their input
    order.  There is one such list ([sorted_reverse_unique] below), and
    insertion from the right computes it. *)

Definition Qltb (a b : Q) : bool := negb (Qle_bool b a).

Section Sorted.
Context {A : Type} (key : A -> Q).

Fixpoint insert_desc (x : A) (l : list A) : list A :=
  match l with
  | [] => [x]
  | y :: l' =>
      if Qltb (key x) (key y) then y :: insert_desc x l' else x :: l
  end.

Definition sorted_reverse (l : list A) : list A :=
  fold_right insert_desc [] l.

(** [desc a b]: [a] may stand before [b] in descending key order. *)
Definition desc (a b : A) : Prop := (key b <= key a)%Q.

(** The elements whose key equals [v]. *)
Definition with_key (v : Q) (l : list A) : list A :=
  filter (fun a => Qeq_bool (key a) v) l.
End Sorted.

(** ** [CryptoRatesAPI.process_rates_data] *)

Definition get_default {A} (field : option A) (default : A) : A :=
  match field with Some a => a | None => default end.

(** lines 89-94 *)
Definition rate_of (currency : string) (data : raw_rate) : rate :=
  {| name := get_default (raw_name data) currency;
     unit_ := get_default (raw_unit data) "N/A";
     value := get_default (raw_value data) 0%Q;
     type_ := get_default (raw_type data) "unknown" |}.

Definition process_rates_data (raw : raw_data) : M pydict :=
  match Dict.get "rates" raw with
  | None => raise (ValueError "Invalid API response: missing 'rates' field")
  | Some (JRates entries) =>
      let rates :=
        fold_left (fun acc cd => Dict.set (fst cd) (rate_of (fst cd) (snd cd)) acc)
                  (Dict.items entries) [] in
      let sorted_rates :=
        Dict.of_items (sorted_reverse (fun x => value (snd x)) (Dict.items rates)) in
      e <- ask ;;
      ret [("rates", PRates sorted_rates);
           ("last_updated", PStr (datetime_now e));
           ("total_currencies", PInt (Dict.len sorted_rates))]
  | Some v =>
      (* [.items()] on a value that is not a mapping *)
      raise (AttributeError ("'" ++ type_name v
                             ++ "' object has no attribute 'items'"))
  end.

(** ** [CryptoRatesAPI.get_exchange_rates]

    The result is [self.cached_data] or the error dict; [None] stands for
    Python's [None]. *)

(** truth value of [self.cached_data] *)
Definition truthy (d : option pydict) : bool :=
  match d with Some d => Dict.truthy d | None => false end.

Definition get_exchange_rates : M (option pydict) :=
  e <- ask ;;
  let current_time := time_time e in
  self <- get_self ;;
  if truthy (cached_data self)
     && Qltb (current_time - last_fetch self) (inject_Z (cache_duration self))
  then ret (cached_data self)
  else
    try_except
      (let url := base_url self ++ "/exchange_rates" in
       response <- requests_get url (timeout self) ;;
       raise_for_status url response ;;;
       data <- response_json response ;;
       snapshot <- process_rates_data data ;;
       set_cached_data snapshot ;;;
       set_last_fetch current_time ;;;
       API_CALLS_inc "success" ;;;
       self <- get_self ;;
       ret (cached_data self))
      is_RequestException
      (fun x =>
         API_CALLS_inc "error" ;;;
         self <- get_self ;;
         if truthy (cached_data self)
         then ret (cached_data self)
         else ret (Some [("error",
                          PStr ("Unable to fetch exchange rates: " ++ str x))])).

(** ** The Flask handlers *)

Inductive body :=
| Page_error (error : pyval)         (* render_template('error.html', error=...) *)
| Page_index (data : option pydict)  (* render_template('index.html', data=...) *)
| Json (data : option pydict).       (* jsonify(...) *)

Record response := {
  body_of : body;
  status : Z
}.

(** [k in data] and [data[k]] on a result of [get_exchange_rates] *)
Definition py_in (k : string) (data : option pydict) : M bool :=
  match data with
  | Some d => ret (Dict.contains k d)
  | None => raise (TypeError "argument of type 'NoneType' is not iterable")
  end.

Definition py_getitem (k : string) (data : option pydict) : M pyval :=
  match data with
  | Some d =>
      match Dict.get k d with
      | Some v => ret v
      | None => raise (KeyError k)
      end
  | None => raise (TypeError "'NoneType' object is not subscriptable")
  end.

Definition index : M response :=
  REQUEST_COUNT_inc "GET" "/" ;;;
  data <- get_exchange_rates ;;
  has_error <- py_in "error" data ;;
  if has_error then
    err <- py_getitem "error" data ;;
    ret {| body_of := Page_error err; status := 500 |}
  else
    ret {| body_of := Page_index data; status := 200 |}.

Definition api_rates : M response :=
  REQUEST_COUNT_inc "GET" "/api/rates" ;;;
  data <- get_exchange_rates ;;
  ret {| body_of := Json data; status := 200 |}.

Definition health_check : M response :=
  REQUEST_COUNT_inc "GET" "/health" ;;;
  try_except
    (test_data <- get_exchange_rates ;;
     has_error <- py_in "error" test_data ;;
     let st := if negb has_error then "healthy" else "degraded" in
     e <- ask ;;
     ret {| body_of :=
              Json (Some [("status", PStr st);
                          ("timestamp", PStr (handler_now e));
                          ("version",
                           PStr (get_default (APP_VERSION e) "1.0.0"))]);
            status := 200 |})
    (fun _ => true)
    (fun x =>
       e <- ask ;;
       ret {| body_of :=
                Json (Some [("status", PStr "unhealthy");
                            ("error", PStr (str x));
                            ("timestamp", PStr (handler_now e))]);
              status := 500 |}).

(** The ['status'] field of a JSON body. *)
Definition reported_status (r : response) : option pyval :=
  match body_of r with
  | Json (Some d) => Dict.get "status" d
  | _ => None
  end.

(** One request served by the process: any handler, any surroundings. *)
Inductive step : world -> world -> Prop :=
| step_get e w : step w (snd (get_exchange_rates e w))
| step_index e w : step w (snd (index e w))
| step_api_rates e w : step w (snd (api_rates e w))
| step_health e w : step w (snd (health_check e w)).

Inductive steps : world -> world -> Prop :=
| steps_refl w : steps w w
| steps_cons w1 w2 w3 : step w1 w2 -> steps w2 w3 -> steps w1 w3.

(** * Vocabulary of the properties *)

(** The entries after lines 87-94, before the sort. *)
Definition transformed (entries : Dict.t raw_rate) : Dict.t rate :=
  map (fun cd => (fst cd, rate_of (fst cd) (snd cd))) entries.

Definition by_value (x : string * rate) : Q := value (snd x).

Definition snapshot_of (iso : string) (entries : Dict.t raw_rate) : pydict :=
  let sorted_rates := sorted_reverse by_value (transformed entries) in
  [("rates", PRates sorted_rates);
   ("last_updated", PStr iso);
   ("total_currencies", PInt (Dict.len sorted_rates))].

(** The three-entry payload of the sorting example, other fields free. *)
Definition example_rates (b e u : raw_rate) : raw_data :=
  [("rates", JRates [("btc", b); ("eth", e); ("usd", u)])].

(** A payload to run the transform on: two entries tie at value 1. *)
Definition tie_payload : raw_data :=
  [("rates", JRates
     [("aaa", {| raw_name := None; raw_unit := None;
                 raw_value := Some 1%Q; raw_type := None |});
      ("bbb", {| raw_name := Some "B"; raw_unit := None;
                 raw_value := Some 2%Q; raw_type := Some "fiat" |});
      ("ccc", {| raw_name := None; raw_unit := Some "C";
                 raw_value := Some 1%Q; raw_type := None |});
      ("ddd", {| raw_name := None; raw_unit := None;
                 raw_value := None; raw_type := None |})])].

Definition tie_entries : Dict.t raw_rate :=
  match Dict.get "rates" tie_payload with
  | Some (JRates entries) => entries
  | _ => []
  end.

Definition noon : env :=
  {| time_time := 1000%Q;
     datetime_now := "2024-01-01T12:00:00";
     upstream_reply := Response 200 "OK" tie_payload;
     handler_now := "2024-01-01T12:00:01";
     APP_VERSION := None |}.

(** The test of lines 48-49. *)
Definition fresh (e : env) (w : world) : bool :=
  truthy (cached_data (crypto_api w))
  && Qltb (time_time e - last_fetch (crypto_api w))
          (inject_Z (cache_duration (crypto_api w))).

(** The failures that [requests] reports by raising: no connection, no
    answer within the timeout, a 4xx or 5xx status. *)
Definition upstream_failure (u : upstream) : bool :=
  match u with
  | Unreachable _ | NoAnswerInTime _ => true
  | Response c _ _ => ((400 <=? c) && (c <? 600))%Z
  end.

(** The world after one more request to the upstream. *)
Definition after_request (w : world) : world :=
  {| crypto_api := crypto_api w;
     API_CALLS := API_CALLS w;
     REQUEST_COUNT := REQUEST_COUNT w;
     requests_sent := S (requests_sent w) |}.

Definition after_error (w : world) : world :=
  {| crypto_api := crypto_api w;
     API_CALLS := {| calls_success := calls_success (API_CALLS w);
                     calls_error := S (calls_error (API_CALLS w)) |};
     REQUEST_COUNT := REQUEST_COUNT w;
     requests_sent := S (requests_sent w) |}.

Definition after_success (t : Q) (d : pydict) (w : world) : world :=
  {| crypto_api := {| base_url := base_url (crypto_api w);
                      timeout := timeout (crypto_api w);
                      cache_duration := cache_duration (crypto_api w);
                      last_fetch := t;
                      cached_data := Some d |};
     API_CALLS := {| calls_success := S (calls_success (API_CALLS w));
                     calls_error := calls_error (API_CALLS w) |};
     REQUEST_COUNT := REQUEST_COUNT w;
     requests_sent := S (requests_sent w) |}.

Ltac run_get :=
  cbv beta iota zeta delta
    [get_exchange_rates bind ask get_self get_world put_world ret raise
     try_except requests_get raise_for_status response_json
     set_cached_data set_last_fetch set_self API_CALLS_inc
     crypto_api cached_data last_fetch cache_duration base_url timeout
     API_CALLS REQUEST_COUNT requests_sent fst snd].

(** The dict of lines 101-105: three keys in this order, and
    total_currencies is the number of rates. *)
Definition is_snapshot (d : pydict) : bool :=
  match d with
  | [(k1, PRates r); (k2, PStr _); (k3, PInt n)] =>
      String.eqb k1 "rates" && String.eqb k2 "last_updated"
      && String.eqb k3 "total_currencies" && (n =? Dict.len r)%Z
  | _ => false
  end.

(** The cache is empty or holds a snapshot. *)
Definition cache_inv (w : world) : bool :=
  match cached_data (crypto_api w) with
  | None => true
  | Some d => is_snapshot d
  end.

(** The cache holds a snapshot. *)
Definition populated (w : world) : bool :=
  match cached_data (crypto_api w) with
  | None => false
  | Some d => is_snapshot d
  end.

(** Every call takes one of four courses. *)
Inductive course (e : env) (w : world)
  : outcome (option pydict) -> world -> Prop :=
| course_hit :
    fresh e w = true ->
    course e w (Returned (cached_data (crypto_api w))) w
| course_failure x :
    fresh e w = false ->
    upstream_failure (upstream_reply e) = true ->
    is_RequestException x = true ->
    course e w
      (Returned
         (if truthy (cached_data (crypto_api w))
          then cached_data (crypto_api w)
          else Some [("error",
                      PStr ("Unable to fetch exchange rates: " ++ str x))]))
      (after_error w)
| course_success r :
    fresh e w = false ->
    upstream_failure (upstream_reply e) = false ->
    let d := [("rates", PRates r);
              ("last_updated", PStr (datetime_now e));
              ("total_currencies", PInt (Dict.len r))] in
    course e w (Returned (Some d)) (after_success (time_time e) d w)
| course_uncaught x :
    fresh e w = false ->
    upstream_failure (upstream_reply e) = false ->
    is_RequestException x = false ->
    course e w (Raised x) (after_request w).

(** The invalid response of the test suite. *)
Definition invalid_response : raw_data := [("invalid", JStr "response")].

Definition malformed (t : Q) : env :=
  {| time_time := t;
     datetime_now := "2024-01-01T12:10:00";
     upstream_reply := Response 200 "OK" invalid_response;
     handler_now := "2024-01-01T12:10:01";
     APP_VERSION := None |}.

(** The world after one successful fetch at [noon]. *)
Definition warm : world := snd (get_exchange_rates noon (init_world None None)).

Definition outage (t : Q) : env :=
  {| time_time := t;
     datetime_now := "2024-01-01T12:20:00";
     upstream_reply := Unreachable "Connection refused";
     handler_now := "2024-01-01T12:20:01";
     APP_VERSION := None |}.

Definition noon_snapshot : pydict := snapshot_of "2024-01-01T12:00:00" tie_entries.

(** The reply to the next fetch. *)
Definition next_reply : raw_data :=
  [("rates", JRates
     [("btc", {| raw_name := Some "Bitcoin"; raw_unit := Some "BTC";
                 raw_value := Some 1.0%Q; raw_type := Some "crypto" |});
      ("eth", {| raw_name := Some "Ether"; raw_unit := Some "ETH";
                 raw_value := Some 0.066%Q; raw_type := Some "crypto" |});
      ("usd", {| raw_name := Some "US Dollar"; raw_unit := Some "$";
                 raw_value := Some 43000.0%Q; raw_type := Some "fiat" |})])].

Definition next_entries : Dict.t raw_rate :=
  match Dict.get "rates" next_reply with
  | Some (JRates entries) => entries
  | _ => []
  end.

Definition afternoon : env :=
  {| time_time := 1300%Q;
     datetime_now := "2024-01-01T12:05:00";
     upstream_reply := Response 200 "OK" next_reply;
     handler_now := "2024-01-01T12:05:01";
     APP_VERSION := None |}.

(** The world after [REQUEST_COUNT.labels(...).inc()]. *)
Definition counted (m ep : string) (w : world) : world :=
  {| crypto_api := crypto_api w;
     API_CALLS := API_CALLS w;
     REQUEST_COUNT := counter_inc m ep (REQUEST_COUNT w);
     requests_sent := requests_sent w |}.

(** * The rest of the module: the other handlers, dispatch, [main] *)

(** What leaves the server: a rendered page or JSON body, or the text of
    [generate_latest()], which shows the registry's counters. *)
Inductive payload :=
| Rendered (b : body)
| Exposition (calls : api_calls) (counts : list (string * string * nat)).

Record http_response := {
  payload_of : payload;
  http_status : Z
}.

Definition of_response (r : response) : http_response :=
  {| payload_of := Rendered (body_of r); http_status := status r |}.

(** [metrics]: no counter is touched, the cache is not consulted. *)
Definition metrics : M http_response :=
  w <- get_world ;;
  ret {| payload_of := Exposition (API_CALLS w) (REQUEST_COUNT w);
         http_status := 200 |}.

(** [not_found], registered for 404 *)
Definition not_found : M response :=
  ret {| body_of := Page_error (PStr "Page not found"); status := 404 |}.

(** [internal_error], registered for 500 *)
Definition internal_error (x : exn) : M response :=
  ret {| body_of := Page_error (PStr "Internal server error"); status := 500 |}.

(** A GET request for a path, as the decorators of lines 112-176 wire it
    outside debug and testing mode: the view registered for the path
    runs, an exception that leaves a view goes to the 500 handler, and
    any other path goes to the 404 handler.  Paths are compared as they
    are written: the redirects that the routing library issues for
    doubled or trailing slashes are not part of this definition. *)
Definition dispatch (path : string) : M http_response :=
  try_except
    (if String.eqb path "/" then r <- index ;; ret (of_response r)
     else if String.eqb path "/api/rates" then
       r <- api_rates ;; ret (of_response r)
     else if String.eqb path "/health" then
       r <- health_check ;; ret (of_response r)
     else if String.eqb path "/metrics" then metrics
     else r <- not_found ;; ret (of_response r))
    (fun _ => true)
    (fun x => r <- internal_error x ;; ret (of_response r)).

(** The value of one labelled child of [REQUEST_COUNT]. *)
Fixpoint counter_value (m ep : string) (c : list (string * string * nat)) : nat :=
  match c with
  | [] => 0%nat
  | (m', ep', n) :: c' =>
      if String.eqb m m' && String.eqb ep ep' then n
      else counter_value m ep c'
  end.

(** [str.lower()] on the letters A-Z; every other byte stays. *)
Definition ascii_lower (c : ascii) : ascii :=
  let n := nat_of_ascii c in
  if (65 <=? n)%nat && (n <=? 90)%nat then ascii_of_nat (n + 32) else c.

Fixpoint py_lower (s : string) : string :=
  match s with
  | EmptyString => EmptyString
  | String c s' => String (ascii_lower c) (py_lower s')
  end.

(** [main], line 182: [os.getenv('FLASK_DEBUG', 'false').lower() == 'true'] *)
Definition debug_of (flask_debug : option string) : bool :=
  String.eqb (py_lower (get_default flask_debug "false")) "true".

(** Payloads and surroundings to run the code on. *)
Definition descending_reply : raw_data :=
  [("rates", JRates
     [("usd", {| raw_name := Some "US Dollar"; raw_unit := Some "$";
                 raw_value := Some 43000.0%Q; raw_type := Some "fiat" |});
      ("btc", {| raw_name := None; raw_unit := None;
                 raw_value := Some 1.0%Q; raw_type := None |});
      ("xrp", {| raw_name := None; raw_unit := None;
                 raw_value := Some 1.0%Q; raw_type := None |});
      ("eth", {| raw_name := None; raw_unit := None;
                 raw_value := None; raw_type := None |})])].

Definition descending_entries : Dict.t raw_rate :=
  match Dict.get "rates" descending_reply with
  | Some (JRates entries) => entries
  | _ => []
  end.

Definition replying (t : Q) (c : Z) (j : raw_data) : env :=
  {| time_time := t;
     datetime_now := "2024-01-01T12:30:00";
     upstream_reply := Response c "OK" j;
     handler_now := "2024-01-01T12:30:01";
     APP_VERSION := Some "1.0.0-test" |}.

(** * Properties *)

(** ** Dicts with distinct keys *)

Module DictFacts.
Import Dict.

Section Facts.
Context {V : Type}.
Implicit Types (d : Dict.t V) (k : string) (v : V).

Lemma contains_cons k k' v d :
  contains k ((k', v) :: d) = String.eqb k k' || contains k d.
Proof.
  unfold contains; simpl. destruct (String.eqb k k'); reflexivity.
Qed.

Lemma contains_app k d1 d2 :
  contains k (d1 ++ d2)%list = contains k d1 || contains k d2.
Proof.
  induction d1 as [|[k' v'] d1 IH]; simpl; [reflexivity|].
  rewrite !contains_cons, IH. apply orb_assoc.
Qed.

Lemma contains_In k d : contains k d = true <-> In k (keys d).
Proof.
  induction d as [|[k' v'] d IH]; simpl.
  - unfold contains; simpl. split; [discriminate | tauto].
  - rewrite contains_cons, orb_true_iff, IH, String.eqb_eq.
    split; intros [H|H]; auto.
Qed.

Lemma wf_NoDup d : wf d = true <-> NoDup (keys d).
Proof.
  induction d as [|[k v] d IH]; simpl.
  - split; [constructor | reflexivity].
  - rewrite andb_true_iff, negb_true_iff, IH. split.
    + intros [Hk Hd]. constructor; [|exact Hd].
      rewrite <- contains_In, Hk. discriminate.
    + intros H. inversion H as [|? ? Hk Hd]; subst. split; [|exact Hd].
      destruct (contains k d) eqn:E; [|reflexivity].
      apply contains_In in E. contradiction.
Qed.

(** Setting a new key appends. *)
Lemma set_fresh k v d :
  contains k d = false -> set k v d = (d ++ [(k, v)])%list.
Proof.
  induction d as [|[k' v'] d IH]; simpl; intros H; [reflexivity|].
  rewrite contains_cons in H. apply orb_false_iff in H as [Hk Hd].
  rewrite Hk, IH by exact Hd. reflexivity.
Qed.

End Facts.

(** The loop [for k, x in kvs: acc[k] = f k x] over distinct keys that
    are new to [acc] appends the images in order. *)
Lemma fold_set_fresh {U V} (f : string -> U -> V) (kvs : Dict.t U) :
  forall acc : Dict.t V,
    wf kvs = true ->
    (forall k, contains k kvs = true -> contains k acc = false) ->
    fold_left (fun acc cd => set (fst cd) (f (fst cd) (snd cd)) acc) kvs acc
    = (acc ++ map (fun cd => (fst cd, f (fst cd) (snd cd))) kvs)%list.
Proof.
  induction kvs as [|[k u] kvs IH]; simpl; intros acc Hwf Hnew.
  - symmetry. apply app_nil_r.
  - apply andb_true_iff in Hwf as [Hk Hwf]. apply negb_true_iff in Hk.
    rewrite set_fresh.
    + rewrite IH; [rewrite <- app_assoc; reflexivity | exact Hwf |].
      intros k' Hk'. rewrite contains_app, contains_cons.
      rewrite Hnew by (rewrite contains_cons, Hk'; apply orb_true_r).
      destruct (String.eqb k' k) eqn:E; [|reflexivity].
      apply String.eqb_eq in E. subst k'. congruence.
    + apply Hnew. rewrite contains_cons, String.eqb_refl. reflexivity.
Qed.

Lemma of_items_wf {V} (kvs : list (string * V)) :
  wf kvs = true -> of_items kvs = kvs.
Proof.
  intros Hwf. unfold of_items.
  rewrite (fold_set_fresh (fun _ v => v) kvs []); [|exact Hwf|reflexivity].
  simpl. rewrite <- (map_id kvs) at 2. apply map_ext. intros [k v]. reflexivity.
Qed.

Lemma contains_map {U V} (f : string -> U -> V) (kvs : Dict.t U) k :
  contains k (map (fun cd => (fst cd, f (fst cd) (snd cd))) kvs)
  = contains k kvs.
Proof.
  induction kvs as [|[k' u] kvs IH]; simpl; [reflexivity|].
  rewrite !contains_cons, IH. reflexivity.
Qed.

Lemma wf_map {U V} (f : string -> U -> V) (kvs : Dict.t U) :
  wf (map (fun cd => (fst cd, f (fst cd) (snd cd))) kvs) = wf kvs.
Proof.
  induction kvs as [|[k u] kvs IH]; simpl; [reflexivity|].
  rewrite IH, contains_map. reflexivity.
Qed.

Lemma wf_Permutation {V} (d1 d2 : Dict.t V) :
  Permutation d1 d2 -> wf d1 = true -> wf d2 = true.
Proof.
  intros HP. rewrite !wf_NoDup. apply Permutation_NoDup.
  unfold keys. apply Permutation_map. exact HP.
Qed.

End DictFacts.

(** ** The sort: descending, a permutation, stable *)

Lemma Qltb_lt a b : Qltb a b = true <-> (a < b)%Q.
Proof.
  unfold Qltb. rewrite negb_true_iff. split.
  - intros H. apply Qnot_le_lt. intros Hle.
    apply Qle_bool_iff in Hle. congruence.
  - intros H. destruct (Qle_bool b a) eqn:E; [|reflexivity].
    apply Qle_bool_iff in E. exfalso. exact (Qlt_not_le _ _ H E).
Qed.

Lemma Qltb_ge a b : Qltb a b = false <-> (b <= a)%Q.
Proof.
  unfold Qltb. rewrite negb_false_iff. apply Qle_bool_iff.
Qed.

Section SortFacts.
Context {A : Type} (key : A -> Q).

Lemma insert_desc_perm x l : Permutation (insert_desc key x l) (x :: l).
Proof.
  induction l as [|y l IH]; simpl; [reflexivity|].
  destruct (Qltb (key x) (key y)); [|reflexivity].
  rewrite IH. apply perm_swap.
Qed.

Lemma sorted_reverse_perm l : Permutation (sorted_reverse key l) l.
Proof.
  induction l as [|x l IH]; simpl; [constructor|].
  rewrite insert_desc_perm. constructor. exact IH.
Qed.

Lemma sorted_reverse_length l : List.length (sorted_reverse key l) = List.length l.
Proof. apply Permutation_length, sorted_reverse_perm. Qed.

Lemma insert_desc_sorted x l :
  StronglySorted (desc key) l -> StronglySorted (desc key) (insert_desc key x l).
Proof.
  induction l as [|y l IH]; simpl; intros Hs.
  - repeat constructor.
  - inversion Hs as [|? ? Hl Hy]; subst.
    destruct (Qltb (key x) (key y)) eqn:E.
    + constructor; [exact (IH Hl)|].
      apply (Permutation_Forall (Permutation_sym (insert_desc_perm x l))).
      constructor; [|exact Hy].
      apply Qltb_lt in E. unfold desc. apply Qlt_le_weak. exact E.
    + apply Qltb_ge in E. constructor; [exact Hs|].
      constructor; [exact E|].
      eapply Forall_impl; [|exact Hy].
      intros z Hz. unfold desc in *. eapply Qle_trans; eassumption.
Qed.

Lemma sorted_reverse_sorted l : StronglySorted (desc key) (sorted_reverse key l).
Proof.
  induction l as [|x l IH]; simpl; [constructor|].
  apply insert_desc_sorted. exact IH.
Qed.

Lemma insert_desc_with_key v x l :
  with_key key v (insert_desc key x l) = with_key key v (x :: l).
Proof.
  unfold with_key.
  induction l as [|y l IH]; simpl; [reflexivity|].
  destruct (Qltb (key x) (key y)) eqn:E; [|reflexivity].
  simpl. rewrite IH. simpl.
  destruct (Qeq_bool (key x) v) eqn:Ex; [|reflexivity].
  destruct (Qeq_bool (key y) v) eqn:Ey; [|reflexivity].
  exfalso. apply Qltb_lt in E.
  apply Qeq_bool_iff in Ex. apply Qeq_bool_iff in Ey.
  rewrite Ex, Ey in E. exact (Qlt_irrefl _ E).
Qed.

(** Stability: the elements of any one key come out in input order. *)
Lemma sorted_reverse_stable v l :
  with_key key v (sorted_reverse key l) = with_key key v l.
Proof.
  induction l as [|x l IH]; simpl; [reflexivity|].
  rewrite insert_desc_with_key. unfold with_key in *. simpl.
  rewrite IH. reflexivity.
Qed.
(** Two lists in descending order that agree on the elements of every key,
    in order, are the same list. *)
Lemma desc_stable_unique l1 :
  forall l2,
    StronglySorted (desc key) l1 -> StronglySorted (desc key) l2 ->
    (forall v, with_key key v l1 = with_key key v l2) ->
    l1 = l2.
Proof.
  induction l1 as [|a l1 IH]; intros [|b l2] H1 H2 Hk.
  - reflexivity.
  - specialize (Hk (key b)). unfold with_key in Hk. simpl in Hk.
    rewrite Qeq_bool_refl in Hk. discriminate.
  - specialize (Hk (key a)). unfold with_key in Hk. simpl in Hk.
    rewrite Qeq_bool_refl in Hk. discriminate.
  - inversion H1 as [|? ? Hs1 Ha]; inversion H2 as [|? ? Hs2 Hb]; subst.
    assert (Hhead : forall x y l l',
               Forall ((desc key) y) l' ->
               with_key key (key x) (x :: l) = with_key key (key x) (y :: l') ->
               (key x <= key y)%Q).
    { intros x y l l' Hy E.
      assert (Hin : In x (with_key key (key x) (y :: l'))).
      { rewrite <- E. unfold with_key. simpl. rewrite Qeq_bool_refl.
        left. reflexivity. }
      apply filter_In in Hin as [[->|Hin] _]; [apply Qle_refl|].
      rewrite Forall_forall in Hy. exact (Hy x Hin). }
    pose proof (Hhead a b l1 l2 Hb (Hk (key a))) as Hab.
    pose proof (Hhead b a l2 l1 Ha (eq_sym (Hk (key b)))) as Hba.
    assert (Eab : Qeq_bool (key b) (key a) = true).
    { apply Qeq_bool_iff. apply Qle_antisym; assumption. }
    pose proof (Hk (key a)) as E. unfold with_key in E. simpl in E.
    rewrite Qeq_bool_refl, Eab in E. injection E as <- _.
    f_equal. apply IH; [assumption|assumption|].
    intros v. specialize (Hk v). unfold with_key in *. simpl in Hk.
    destruct (Qeq_bool (key a) v); [injection Hk as Hk|]; exact Hk.
Qed.

(** So the result of the sort does not depend on how it is computed. *)
Lemma sorted_reverse_unique l l' :
  StronglySorted (desc key) l' ->
  (forall v, with_key key v l' = with_key key v l) ->
  l' = sorted_reverse key l.
Proof.
  intros Hs Hk. apply desc_stable_unique.
  - exact Hs.
  - apply sorted_reverse_sorted.
  - intros v. rewrite Hk. symmetry. apply sorted_reverse_stable.
Qed.
End SortFacts.

(** ** The transform *)

Section DictLookup.
Import Dict DictFacts.
Context {V : Type}.


End DictLookup.

Lemma process_rates_data_ok raw entries e w :
  Dict.get "rates" raw = Some (JRates entries) ->
  Dict.wf entries = true ->
  process_rates_data raw e w
  = (Returned (snapshot_of (datetime_now e) entries), w).
Proof.
  intros Hr Hwf. unfold process_rates_data. rewrite Hr.
  unfold Dict.items.
  rewrite (DictFacts.fold_set_fresh rate_of entries []); [|exact Hwf|reflexivity].
  simpl app. fold (transformed entries).
  rewrite DictFacts.of_items_wf.
  - reflexivity.
  - apply (DictFacts.wf_Permutation (transformed entries)).
    + apply Permutation_sym, sorted_reverse_perm.
    + unfold transformed. rewrite DictFacts.wf_map. exact Hwf.
Qed.

Lemma process_rates_data_missing raw e w :
  Dict.get "rates" raw = None ->
  process_rates_data raw e w
  = (Raised (ValueError "Invalid API response: missing 'rates' field"), w).
Proof. intros H. unfold process_rates_data. rewrite H. reflexivity. Qed.

(** Values that are numbers.  For a payload with a ['rates'] mapping whose
    values are numbers (this model's [Q]: no NaN), [process_rates_data]
    returns the entries in descending order of value: the result holds
    exactly the transformed entries, sorted, and the entries of any one
    value stand in the upstream's order.  The payload with btc at 1.0, eth
    at 0.066 and usd at 43000.0 comes out as usd, btc, eth with
    total_currencies 3. *)
Theorem process_rates_data_sorted_desc_stable :
  (forall raw entries e w,
      Dict.get "rates" raw = Some (JRates entries) ->
      Dict.wf entries = true ->
      exists sorted_rates,
        process_rates_data raw e w
        = (Returned [("rates", PRates sorted_rates);
                     ("last_updated", PStr (datetime_now e));
                     ("total_currencies", PInt (Z.of_nat (List.length entries)))],
           w)
        /\ Permutation sorted_rates (transformed entries)
        /\ StronglySorted (fun a b => (value (snd b) <= value (snd a))%Q)
                          sorted_rates
        /\ forall v,
            filter (fun x => Qeq_bool (value (snd x)) v) sorted_rates
            = filter (fun x => Qeq_bool (value (snd x)) v) (transformed entries))
  /\ (forall b e u env w,
        raw_value b = Some 1.0%Q -> raw_value e = Some 0.066%Q ->
        raw_value u = Some 43000.0%Q ->
        process_rates_data (example_rates b e u) env w
        = (Returned [("rates", PRates [("usd", rate_of "usd" u);
                                       ("btc", rate_of "btc" b);
                                       ("eth", rate_of "eth" e)]);
                     ("last_updated", PStr (datetime_now env));
                     ("total_currencies", PInt 3)],
           w)).
Proof.
  split.
  - intros raw entries e w Hr Hwf.
    exists (sorted_reverse by_value (transformed entries)).
    split; [|split; [|split]].
    + rewrite (process_rates_data_ok raw entries e w Hr Hwf).
      unfold snapshot_of, Dict.len.
      rewrite sorted_reverse_length. unfold transformed.
      rewrite length_map. reflexivity.
    + apply sorted_reverse_perm.
    + apply (sorted_reverse_sorted by_value).
    + intros v. apply (sorted_reverse_stable by_value).
  - intros b e u env w Hb He Hu.
    rewrite (process_rates_data_ok _ [("btc", b); ("eth", e); ("usd", u)]);
      [|reflexivity|reflexivity].
    unfold snapshot_of, transformed, by_value. simpl map.
    unfold sorted_reverse, rate_of. simpl.
    rewrite Hb, He, Hu. reflexivity.
Qed.

Lemma process_rates_data_sorted_desc_stable_witness :
  exists sorted_rates,
    process_rates_data tie_payload noon (init_world None None)
    = (Returned [("rates", PRates sorted_rates);
                 ("last_updated", PStr "2024-01-01T12:00:00");
                 ("total_currencies", PInt 4)],
       init_world None None)
    /\ Permutation sorted_rates (transformed tie_entries)
    /\ StronglySorted (fun a b => (value (snd b) <= value (snd a))%Q)
                      sorted_rates
    /\ forall v,
        filter (fun x => Qeq_bool (value (snd x)) v) sorted_rates
        = filter (fun x => Qeq_bool (value (snd x)) v) (transformed tie_entries).
Proof.
  apply (proj1 process_rates_data_sorted_desc_stable
               tie_payload tie_entries noon (init_world None None));
    reflexivity.
Defined.



(** ** [get_exchange_rates], branch by branch *)

Lemma get_exchange_rates_hit e w :
  fresh e w = true ->
  get_exchange_rates e w = (Returned (cached_data (crypto_api w)), w).
Proof.
  unfold fresh. destruct w as [[u t c l d] a r n]. run_get.
  intros ->. reflexivity.
Qed.

Lemma get_exchange_rates_failure e w :
  fresh e w = false ->
  upstream_failure (upstream_reply e) = true ->
  exists x,
    is_RequestException x = true
    /\ get_exchange_rates e w
       = (Returned
            (if truthy (cached_data (crypto_api w))
             then cached_data (crypto_api w)
             else Some [("error",
                         PStr ("Unable to fetch exchange rates: " ++ str x))]),
          after_error w).
Proof.
  unfold fresh, after_error. destruct w as [[u t c l d] a r n]. run_get.
  intros Hf Hu. rewrite Hf.
  destruct (upstream_reply e) as [msg|msg|code reason j]; simpl in Hu.
  - exists (ConnectionError msg). split; [reflexivity|].
    simpl. destruct (truthy d); reflexivity.
  - exists (ConnectTimeout msg). split; [reflexivity|].
    simpl. destruct (truthy d); reflexivity.
  - destruct ((400 <=? code)%Z && (code <? 500)%Z) eqn:E4.
    + exists (HTTPError (string_of_Z code ++ " Client Error: " ++ reason
                         ++ " for url: " ++ u ++ "/exchange_rates")).
      split; [reflexivity|]. simpl. destruct (truthy d); reflexivity.
    + destruct ((500 <=? code)%Z && (code <? 600)%Z) eqn:E5.
      * exists (HTTPError (string_of_Z code ++ " Server Error: " ++ reason
                           ++ " for url: " ++ u ++ "/exchange_rates")).
        split; [reflexivity|]. simpl. destruct (truthy d); reflexivity.
      * exfalso. apply andb_true_iff in Hu as [H1 H2].
        apply andb_false_iff in E4. apply andb_false_iff in E5.
        destruct E4 as [E4|E4], E5 as [E5|E5]; lia.
Qed.

Lemma status_cases c :
  ((400 <=? c) && (c <? 600))%Z = false ->
  ((400 <=? c) && (c <? 500))%Z = false
  /\ ((500 <=? c) && (c <? 600))%Z = false.
Proof.
  intros H. apply andb_false_iff in H.
  split; apply andb_false_iff; destruct H as [H|H]; lia.
Qed.

Lemma get_exchange_rates_stored e w c reason j d :
  fresh e w = false ->
  upstream_reply e = Response c reason j ->
  upstream_failure (upstream_reply e) = false ->
  process_rates_data j e (after_request w) = (Returned d, after_request w) ->
  get_exchange_rates e w
  = (Returned (Some d), after_success (time_time e) d w).
Proof.
  unfold fresh, after_success, after_request.
  destruct w as [[u t cd l cache] a r n]. run_get.
  intros Hf Hu Hs Hp. rewrite Hf. rewrite Hu in Hs |- *. simpl in Hs.
  destruct (status_cases c Hs) as [-> ->].
  rewrite Hp. reflexivity.
Qed.

Lemma get_exchange_rates_propagates e w c reason j x :
  fresh e w = false ->
  upstream_reply e = Response c reason j ->
  upstream_failure (upstream_reply e) = false ->
  process_rates_data j e (after_request w) = (Raised x, after_request w) ->
  is_RequestException x = false ->
  get_exchange_rates e w = (Raised x, after_request w).
Proof.
  unfold fresh, after_request.
  destruct w as [[u t cd l cache] a r n]. run_get.
  intros Hf Hu Hs Hp Hx. rewrite Hf. rewrite Hu in Hs |- *. simpl in Hs.
  destruct (status_cases c Hs) as [-> ->].
  rewrite Hp, Hx. reflexivity.
Qed.

Lemma get_exchange_rates_success e w c reason j entries :
  fresh e w = false ->
  upstream_reply e = Response c reason j ->
  upstream_failure (upstream_reply e) = false ->
  Dict.get "rates" j = Some (JRates entries) ->
  Dict.wf entries = true ->
  get_exchange_rates e w
  = (Returned (Some (snapshot_of (datetime_now e) entries)),
     after_success (time_time e) (snapshot_of (datetime_now e) entries) w).
Proof.
  intros Hf Hu Hs Hr Hwf.
  apply (get_exchange_rates_stored e w c reason j); try assumption.
  apply process_rates_data_ok; assumption.
Qed.

Lemma get_exchange_rates_missing_rates e w c reason j :
  fresh e w = false ->
  upstream_reply e = Response c reason j ->
  upstream_failure (upstream_reply e) = false ->
  Dict.get "rates" j = None ->
  get_exchange_rates e w
  = (Raised (ValueError "Invalid API response: missing 'rates' field"),
     after_request w).
Proof.
  intros Hf Hu Hs Hr.
  apply (get_exchange_rates_propagates e w c reason j); try assumption.
  - apply process_rates_data_missing. exact Hr.
  - reflexivity.
Qed.

(** ** The shape of a snapshot *)

Lemma is_snapshot_inv d :
  is_snapshot d = true ->
  exists r iso,
    d = [("rates", PRates r); ("last_updated", PStr iso);
         ("total_currencies", PInt (Dict.len r))].
Proof.
  destruct d as [|[k1 [ | |r]] [|[k2 [iso| | ]] [|[k3 [ |n| ]] [|]]]];
    simpl; try discriminate.
  intros H. repeat (apply andb_true_iff in H as [H ?]).
  apply String.eqb_eq in H. subst k1.
  repeat match goal with
         | E : String.eqb _ _ = true |- _ => apply String.eqb_eq in E; subst
         | E : (_ =? _)%Z = true |- _ => apply Z.eqb_eq in E; subst
         end.
  exists r, iso. reflexivity.
Qed.

Lemma is_snapshot_intro r iso :
  is_snapshot [("rates", PRates r); ("last_updated", PStr iso);
               ("total_currencies", PInt (Dict.len r))] = true.
Proof. simpl. apply Z.eqb_refl. Qed.

Lemma is_snapshot_truthy d : is_snapshot d = true -> Dict.truthy d = true.
Proof. destruct d; [discriminate | reflexivity]. Qed.

Lemma is_snapshot_no_error d :
  is_snapshot d = true -> Dict.contains "error" d = false.
Proof.
  intros H. destruct (is_snapshot_inv d H) as [r [iso ->]]. reflexivity.
Qed.

Lemma process_rates_data_cases raw e w :
  (exists x, process_rates_data raw e w = (Raised x, w)
             /\ is_RequestException x = false)
  \/ (exists r,
         process_rates_data raw e w
         = (Returned [("rates", PRates r);
                      ("last_updated", PStr (datetime_now e));
                      ("total_currencies", PInt (Dict.len r))], w)).
Proof.
  unfold process_rates_data.
  destruct (Dict.get "rates" raw) as [v|];
    [destruct v|]; try (left; eexists; split; reflexivity).
  right. eexists. reflexivity.
Qed.

Lemma get_exchange_rates_course e w :
  course e w (fst (get_exchange_rates e w)) (snd (get_exchange_rates e w)).
Proof.
  destruct (fresh e w) eqn:Hf.
  - rewrite (get_exchange_rates_hit e w Hf). simpl. constructor. exact Hf.
  - destruct (upstream_failure (upstream_reply e)) eqn:Hu.
    + destruct (get_exchange_rates_failure e w Hf Hu) as [x [Hx ->]].
      simpl. constructor; assumption.
    + destruct (upstream_reply e) as [msg|msg|c reason j] eqn:Hr;
        try discriminate.
      rewrite <- Hr in Hu.
      destruct (process_rates_data_cases j e (after_request w))
        as [[x [Hp Hx]]|[r Hp]].
      * rewrite (get_exchange_rates_propagates e w c reason j x Hf Hr Hu Hp Hx).
        simpl. constructor; assumption.
      * rewrite (get_exchange_rates_stored e w c reason j _ Hf Hr Hu Hp).
        simpl. apply course_success; assumption.
Qed.

Lemma miss_sends_one_request e w :
  fresh e w = false ->
  requests_sent (snd (get_exchange_rates e w)) = S (requests_sent w).
Proof.
  intros Hf. pose proof (get_exchange_rates_course e w) as Hc.
  destruct (get_exchange_rates e w) as [r w']. simpl in *.
  inversion Hc; subst; try reflexivity. congruence.
Qed.

Lemma hit_sends_no_request e w :
  fresh e w = true -> snd (get_exchange_rates e w) = w.
Proof. intros Hf. rewrite (get_exchange_rates_hit e w Hf). reflexivity. Qed.

(** With a snapshot in the cache, the call is a miss exactly when the ttl
    has elapsed. *)
Lemma fresh_snapshot e w d :
  cached_data (crypto_api w) = Some d ->
  is_snapshot d = true ->
  fresh e w = Qltb (time_time e - last_fetch (crypto_api w))
                   (inject_Z (cache_duration (crypto_api w))).
Proof.
  intros Hd Hs. unfold fresh. rewrite Hd. simpl.
  rewrite (is_snapshot_truthy d Hs). reflexivity.
Qed.

(** ** A body without ['rates'] *)

(** C1. A 200 response whose JSON lacks ['rates'] is not converted into the
    fallback: the ValueError of the transform leaves [get_exchange_rates],
    with an empty cache and with a snapshot in the cache alike, and the
    error counter is not incremented. *)
Theorem get_exchange_rates_malformed_body_raises :
  get_exchange_rates (malformed 1000) (init_world None None)
  = (Raised (ValueError "Invalid API response: missing 'rates' field"),
     after_request (init_world None None))
  /\ populated warm = true
  /\ get_exchange_rates (malformed 2000) warm
     = (Raised (ValueError "Invalid API response: missing 'rates' field"),
        after_request warm)
  /\ calls_error (API_CALLS (after_request warm)) = 0%nat.
Proof. repeat split; vm_compute; reflexivity. Qed.

(** C2. The stale fallback is missed for a body without ['rates'].  With
    a snapshot in the cache, on a cache miss whose response passes the
    status check and whose JSON has no 'rates' key, the call does not
    return the previous snapshot: the ValueError of the transform leaves
    it.  [cached_data] and [last_fetch] stay as they were and no error is
    counted. *)
Theorem stale_fallback_missed_when_rates_is_missing :
  forall e w d c reason j,
    cached_data (crypto_api w) = Some d ->
    is_snapshot d = true ->
    fresh e w = false ->
    upstream_reply e = Response c reason j ->
    ((400 <=? c) && (c <? 600))%Z = false ->
    Dict.get "rates" j = None ->
    let w' := snd (get_exchange_rates e w) in
    fst (get_exchange_rates e w)
    = Raised (ValueError "Invalid API response: missing 'rates' field")
    /\ fst (get_exchange_rates e w) <> Returned (Some d)
    /\ cached_data (crypto_api w') = Some d
    /\ last_fetch (crypto_api w') = last_fetch (crypto_api w)
    /\ API_CALLS w' = API_CALLS w
    /\ requests_sent w' = S (requests_sent w).
Proof.
  intros e w d c reason j Hd Hs Hf Hr Hc Hj. cbv zeta.
  assert (Hu : upstream_failure (upstream_reply e) = false)
    by (rewrite Hr; exact Hc).
  rewrite (get_exchange_rates_missing_rates e w c reason j Hf Hr Hu Hj).
  simpl. split; [reflexivity|]. split; [discriminate|].
  split; [exact Hd|]. repeat split.
Qed.

Lemma stale_fallback_missed_when_rates_is_missing_witness :
  fst (get_exchange_rates (malformed 2000) warm)
  = Raised (ValueError "Invalid API response: missing 'rates' field")
  /\ fst (get_exchange_rates (malformed 2000) warm)
     <> Returned (Some noon_snapshot)
  /\ cached_data (crypto_api (snd (get_exchange_rates (malformed 2000) warm)))
     = Some noon_snapshot.
Proof.
  destruct (stale_fallback_missed_when_rates_is_missing
              (malformed 2000) warm noon_snapshot 200%Z "OK" invalid_response
              ltac:(vm_compute; reflexivity) ltac:(vm_compute; reflexivity)
              ltac:(vm_compute; reflexivity) eq_refl eq_refl eq_refl)
    as [H1 [H2 [H3 _]]].
  split; [exact H1|]. split; [exact H2 | exact H3].
Defined.

(** C4. No error dict for a body without ['rates'].  With an empty cache,
    on a call whose response passes the status check and whose JSON has
    no 'rates' key, the call returns nothing, neither an error dict nor a
    snapshot: the ValueError of the transform leaves it, and no error is
    counted. *)
Theorem cold_failure_raises_when_rates_is_missing :
  forall e w c reason j,
    cached_data (crypto_api w) = None ->
    upstream_reply e = Response c reason j ->
    ((400 <=? c) && (c <? 600))%Z = false ->
    Dict.get "rates" j = None ->
    get_exchange_rates e w
    = (Raised (ValueError "Invalid API response: missing 'rates' field"),
       after_request w)
    /\ (forall data, fst (get_exchange_rates e w) <> Returned data)
    /\ API_CALLS (snd (get_exchange_rates e w)) = API_CALLS w.
Proof.
  intros e w c reason j Hd Hr Hc Hj.
  assert (Hf : fresh e w = false) by (unfold fresh; rewrite Hd; reflexivity).
  assert (Hu : upstream_failure (upstream_reply e) = false)
    by (rewrite Hr; exact Hc).
  rewrite (get_exchange_rates_missing_rates e w c reason j Hf Hr Hu Hj).
  split; [reflexivity|]. split; [intros data; discriminate | reflexivity].
Qed.

Lemma cold_failure_raises_when_rates_is_missing_witness :
  get_exchange_rates (malformed 1000) (init_world None None)
  = (Raised (ValueError "Invalid API response: missing 'rates' field"),
     after_request (init_world None None)).
Proof.
  destruct (cold_failure_raises_when_rates_is_missing
              (malformed 1000) (init_world None None) 200%Z "OK"
              invalid_response eq_refl eq_refl eq_refl eq_refl) as [H _].
  exact H.
Defined.

(** ** Fallbacks *)

(** The failures that line 71 catches.  With a snapshot in the cache, a
    cache-miss call whose fetch fails by no connection, a timeout or a 4xx
    or 5xx status returns that snapshot, leaves [cached_data] and
    [last_fetch] as they were and counts one error; a following call, at
    the same or a later time, is again a miss and sends a request. *)
Theorem stale_fallback_keeps_snapshot_and_last_fetch :
  forall e w d,
    cached_data (crypto_api w) = Some d ->
    is_snapshot d = true ->
    fresh e w = false ->
    upstream_failure (upstream_reply e) = true ->
    let w' := snd (get_exchange_rates e w) in
    fst (get_exchange_rates e w) = Returned (Some d)
    /\ cached_data (crypto_api w') = Some d
    /\ last_fetch (crypto_api w') = last_fetch (crypto_api w)
    /\ calls_error (API_CALLS w') = S (calls_error (API_CALLS w))
    /\ forall e2,
        (time_time e <= time_time e2)%Q ->
        fresh e2 w' = false
        /\ requests_sent (snd (get_exchange_rates e2 w')) = S (requests_sent w').
Proof.
  intros e w d Hd Hs Hf Hu.
  destruct (get_exchange_rates_failure e w Hf Hu) as [x [Hx Hget]].
  rewrite Hget. cbv zeta. simpl fst. simpl snd.
  rewrite Hd. simpl truthy. rewrite (is_snapshot_truthy d Hs).
  assert (Hc : crypto_api (after_error w) = crypto_api w) by reflexivity.
  rewrite Hc, Hd. repeat split.
  - rewrite (fresh_snapshot e2 (after_error w) d); [|rewrite Hc; exact Hd|exact Hs].
    rewrite (fresh_snapshot e w d Hd Hs) in Hf. rewrite Hc.
    apply Qltb_ge. apply Qltb_ge in Hf. lra.
  - apply miss_sends_one_request.
    rewrite (fresh_snapshot e2 (after_error w) d); [|rewrite Hc; exact Hd|exact Hs].
    rewrite (fresh_snapshot e w d Hd Hs) in Hf. rewrite Hc.
    apply Qltb_ge. apply Qltb_ge in Hf. lra.
Qed.

Lemma stale_fallback_keeps_snapshot_and_last_fetch_witness :
  fst (get_exchange_rates (outage 2000) warm) = Returned (Some noon_snapshot)
  /\ last_fetch (crypto_api (snd (get_exchange_rates (outage 2000) warm)))
     = last_fetch (crypto_api warm)
  /\ requests_sent
       (snd (get_exchange_rates (outage 2000)
               (snd (get_exchange_rates (outage 2000) warm))))
     = S (requests_sent (snd (get_exchange_rates (outage 2000) warm))).
Proof.
  destruct (stale_fallback_keeps_snapshot_and_last_fetch
              (outage 2000) warm noon_snapshot
              ltac:(vm_compute; reflexivity) ltac:(vm_compute; reflexivity)
              ltac:(vm_compute; reflexivity) ltac:(vm_compute; reflexivity))
    as [H1 [_ [H3 [_ H5]]]].
  split; [exact H1|]. split; [exact H3|].
  apply (H5 (outage 2000)). simpl. apply Qle_refl.
Defined.

(** The failures that line 71 catches.  With an empty cache, a call whose
    fetch fails by no connection, a timeout or a 4xx or 5xx status returns
    a dict with the single key ['error'] holding a message; the dict is
    not a snapshot, nothing is raised, the cache stays empty and one error
    is counted. *)
Theorem cold_failure_returns_error_dict :
  forall e w,
    cached_data (crypto_api w) = None ->
    upstream_failure (upstream_reply e) = true ->
    exists msg,
      get_exchange_rates e w
      = (Returned (Some [("error",
                          PStr ("Unable to fetch exchange rates: " ++ msg))]),
         after_error w)
      /\ Dict.contains "error"
           [("error", PStr ("Unable to fetch exchange rates: " ++ msg))] = true
      /\ is_snapshot
           [("error", PStr ("Unable to fetch exchange rates: " ++ msg))] = false
      /\ cached_data (crypto_api (after_error w)) = None.
Proof.
  intros e w Hd Hu.
  assert (Hf : fresh e w = false) by (unfold fresh; rewrite Hd; reflexivity).
  destruct (get_exchange_rates_failure e w Hf Hu) as [x [Hx Hget]].
  exists (str x). rewrite Hget, Hd. simpl truthy. cbv iota.
  repeat split. exact Hd.
Qed.

Lemma cold_failure_returns_error_dict_witness :
  exists msg,
    get_exchange_rates (outage 1000) (init_world None None)
    = (Returned (Some [("error",
                        PStr ("Unable to fetch exchange rates: " ++ msg))]),
       after_error (init_world None None)).
Proof.
  destruct (cold_failure_returns_error_dict
              (outage 1000) (init_world None None) eq_refl eq_refl)
    as [msg [H _]].
  exists msg. exact H.
Defined.

(** ** The cache hit *)



(** ** The refresh *)

(** C7. A cache-miss call whose fetch succeeds (no 4xx or 5xx status, a
    body with a ['rates'] mapping) stores the transformed payload in
    [cached_data], sets [last_fetch] to the current time, adds one to the
    success counter and returns the new snapshot, whose last_updated is
    the clock reading of the transform.  A call made once
    [cache_duration] has elapsed since [last_fetch] is such a miss: it
    sends one request. *)
Theorem refresh_stores_and_returns_new_snapshot :
  (forall e w c reason j entries,
      fresh e w = false ->
      upstream_reply e = Response c reason j ->
      ((400 <=? c) && (c <? 600))%Z = false ->
      Dict.get "rates" j = Some (JRates entries) ->
      Dict.wf entries = true ->
      let snapshot := snapshot_of (datetime_now e) entries in
      let w' := snd (get_exchange_rates e w) in
      process_rates_data j e (after_request w)
      = (Returned snapshot, after_request w)
      /\ fst (get_exchange_rates e w) = Returned (Some snapshot)
      /\ cached_data (crypto_api w') = Some snapshot
      /\ last_fetch (crypto_api w') = time_time e
      /\ calls_success (API_CALLS w') = S (calls_success (API_CALLS w))
      /\ calls_error (API_CALLS w') = calls_error (API_CALLS w)
      /\ requests_sent w' = S (requests_sent w)
      /\ Dict.get "last_updated" snapshot = Some (PStr (datetime_now e)))
  /\ (forall e w,
         (inject_Z (cache_duration (crypto_api w))
          <= time_time e - last_fetch (crypto_api w))%Q ->
         fresh e w = false
         /\ requests_sent (snd (get_exchange_rates e w)) = S (requests_sent w)).
Proof.
  split.
  - intros e w c reason j entries Hf Hr Hc Hj Hwf. cbv zeta.
    assert (Hu : upstream_failure (upstream_reply e) = false)
      by (rewrite Hr; exact Hc).
    rewrite (get_exchange_rates_success e w c reason j entries Hf Hr Hu Hj Hwf).
    split; [apply process_rates_data_ok; assumption|].
    repeat split.
  - intros e w Ht.
    assert (Hf : fresh e w = false).
    { unfold fresh. apply andb_false_iff. right. apply Qltb_ge. exact Ht. }
    split; [exact Hf|]. apply miss_sends_one_request. exact Hf.
Qed.

Lemma refresh_stores_and_returns_new_snapshot_witness :
  fst (get_exchange_rates afternoon warm)
  = Returned (Some (snapshot_of "2024-01-01T12:05:00" next_entries))
  /\ last_fetch (crypto_api (snd (get_exchange_rates afternoon warm))) = 1300%Q
  /\ requests_sent (snd (get_exchange_rates afternoon warm))
     = S (requests_sent warm).
Proof.
  destruct refresh_stores_and_returns_new_snapshot as [H1 H2].
  destruct (H1 afternoon warm 200%Z "OK" next_reply next_entries
               ltac:(vm_compute; reflexivity) eq_refl eq_refl eq_refl eq_refl)
    as [_ [Hr [_ [Hl _]]]].
  destruct (H2 afternoon warm ltac:(vm_compute; discriminate)) as [_ Hn].
  split; [exact Hr|]. split; [exact Hl|exact Hn].
Defined.

(** ** The invariant of the cache *)

Lemma is_snapshot_shape d :
  is_snapshot d = true ->
  Dict.keys d = ["rates"; "last_updated"; "total_currencies"]
  /\ Dict.contains "error" d = false
  /\ exists r,
      Dict.get "rates" d = Some (PRates r)
      /\ Dict.get "total_currencies" d = Some (PInt (Dict.len r)).
Proof.
  intros H. destruct (is_snapshot_inv d H) as [r [iso ->]].
  split; [reflexivity|]. split; [reflexivity|]. exists r. split; reflexivity.
Qed.

(** What a call does to the cache: nothing, or it stores a snapshot. *)
Lemma get_exchange_rates_cache e w :
  crypto_api (snd (get_exchange_rates e w)) = crypto_api w
  \/ exists d,
      is_snapshot d = true
      /\ cached_data (crypto_api (snd (get_exchange_rates e w))) = Some d.
Proof.
  pose proof (get_exchange_rates_course e w) as Hc.
  destruct (get_exchange_rates e w) as [r w']. simpl in *.
  inversion Hc; subst; try (left; reflexivity).
  right. eexists. split; [apply is_snapshot_intro | reflexivity].
Qed.

Lemma cache_inv_get e w :
  cache_inv w = true -> cache_inv (snd (get_exchange_rates e w)) = true.
Proof.
  unfold cache_inv. intros H.
  destruct (get_exchange_rates_cache e w) as [-> | [d [Hs ->]]]; assumption.
Qed.

Lemma populated_get e w :
  populated w = true -> populated (snd (get_exchange_rates e w)) = true.
Proof.
  unfold populated. intros H.
  destruct (get_exchange_rates_cache e w) as [-> | [d [Hs ->]]]; assumption.
Qed.

(** C9. Every call keeps the invariant: if [cached_data] was None or a
    snapshot dict before the call, then after it [cached_data] is None or
    a dict with exactly the keys 'rates', 'last_updated' and
    'total_currencies', without an 'error' key, whose total_currencies is
    the number of entries of its rates. *)
Theorem cached_data_is_none_or_snapshot :
  forall e w,
    cache_inv w = true ->
    let w' := snd (get_exchange_rates e w) in
    cache_inv w' = true
    /\ forall d,
        cached_data (crypto_api w') = Some d ->
        Dict.keys d = ["rates"; "last_updated"; "total_currencies"]
        /\ Dict.contains "error" d = false
        /\ exists r,
            Dict.get "rates" d = Some (PRates r)
            /\ Dict.get "total_currencies" d = Some (PInt (Dict.len r)).
Proof.
  intros e w H. cbv zeta. pose proof (cache_inv_get e w H) as H'.
  split; [exact H'|]. intros d Hd. apply is_snapshot_shape.
  unfold cache_inv in H'. rewrite Hd in H'. exact H'.
Qed.

Lemma cached_data_is_none_or_snapshot_witness :
  cache_inv warm = true
  /\ forall d,
      cached_data (crypto_api warm) = Some d ->
      Dict.keys d = ["rates"; "last_updated"; "total_currencies"]
      /\ Dict.contains "error" d = false
      /\ exists r,
          Dict.get "rates" d = Some (PRates r)
          /\ Dict.get "total_currencies" d = Some (PInt (Dict.len r)).
Proof.
  exact (cached_data_is_none_or_snapshot noon (init_world None None) eq_refl).
Defined.

(** ** The handlers *)

Lemma api_rates_unfold e w :
  api_rates e w
  = match get_exchange_rates e (counted "GET" "/api/rates" w) with
    | (Returned data, w') =>
        (Returned {| body_of := Json data; status := 200 |}, w')
    | (Raised x, w') => (Raised x, w')
    end.
Proof. reflexivity. Qed.

Lemma index_unfold e w :
  index e w
  = match get_exchange_rates e (counted "GET" "/" w) with
    | (Returned (Some d), w') =>
        match Dict.get "error" d with
        | Some err => (Returned {| body_of := Page_error err; status := 500 |}, w')
        | None => (Returned {| body_of := Page_index (Some d); status := 200 |}, w')
        end
    | (Returned None, w') =>
        (Raised (TypeError "argument of type 'NoneType' is not iterable"), w')
    | (Raised x, w') => (Raised x, w')
    end.
Proof.
  unfold index, bind, REQUEST_COUNT_inc, get_world, put_world. simpl.
  fold (counted "GET" "/" w).
  destruct (get_exchange_rates e (counted "GET" "/" w)) as [[[d|]|x] w'];
    try reflexivity.
  unfold py_in, py_getitem, Dict.contains, ret.
  destruct (Dict.get "error" d); reflexivity.
Qed.

Lemma health_check_unfold e w :
  health_check e w
  = match get_exchange_rates e (counted "GET" "/health" w) with
    | (Returned (Some d), w') =>
        (Returned
           {| body_of :=
                Json (Some [("status",
                             PStr (if negb (Dict.contains "error" d)
                                   then "healthy" else "degraded"));
                            ("timestamp", PStr (handler_now e));
                            ("version",
                             PStr (get_default (APP_VERSION e) "1.0.0"))]);
              status := 200 |}, w')
    | (Returned None, w') =>
        (Returned
           {| body_of :=
                Json (Some [("status", PStr "unhealthy");
                            ("error",
                             PStr "argument of type 'NoneType' is not iterable");
                            ("timestamp", PStr (handler_now e))]);
              status := 500 |}, w')
    | (Raised x, w') =>
        (Returned
           {| body_of :=
                Json (Some [("status", PStr "unhealthy");
                            ("error", PStr (str x));
                            ("timestamp", PStr (handler_now e))]);
              status := 500 |}, w')
    end.
Proof.
  unfold health_check, bind, try_except, REQUEST_COUNT_inc, get_world,
    put_world. simpl.
  fold (counted "GET" "/health" w).
  destruct (get_exchange_rates e (counted "GET" "/health" w)) as [[[d|]|x] w'];
    reflexivity.
Qed.

Lemma get_exchange_rates_returns_dict e w data :
  fst (get_exchange_rates e w) = Returned data -> exists d, data = Some d.
Proof.
  pose proof (get_exchange_rates_course e w) as Hc.
  destruct (get_exchange_rates e w) as [r w']. simpl in *. intros ->.
  inversion Hc; subst.
  - unfold fresh in *. destruct (cached_data (crypto_api w')) as [d|].
    + exists d. reflexivity.
    + discriminate.
  - destruct (cached_data (crypto_api w)) as [d|]; simpl.
    + destruct (Dict.truthy d); eexists; reflexivity.
    + eexists; reflexivity.
  - eexists; reflexivity.
Qed.

(** C8. Whatever [get_exchange_rates] returns to the handler, /api/rates
    answers 200 with that value as JSON, an error dict included; / answers
    500 when the value has an 'error' key and 200 when it has none. *)
Theorem api_rates_always_200_index_500_on_error :
  forall e w,
    (forall data w',
        get_exchange_rates e (counted "GET" "/api/rates" w) = (Returned data, w') ->
        api_rates e w = (Returned {| body_of := Json data; status := 200 |}, w'))
    /\ (forall data w',
           get_exchange_rates e (counted "GET" "/" w) = (Returned data, w') ->
           exists d resp,
             data = Some d
             /\ index e w = (Returned resp, w')
             /\ status resp = (if Dict.contains "error" d then 500 else 200)%Z
             /\ (status resp = 500%Z <-> Dict.contains "error" d = true)).
Proof.
  intros e w. split.
  - intros data w' H. rewrite api_rates_unfold, H. reflexivity.
  - intros data w' H.
    destruct (get_exchange_rates_returns_dict e (counted "GET" "/" w) data)
      as [d ->]; [rewrite H; reflexivity|].
    exists d. rewrite index_unfold, H. unfold Dict.contains.
    destruct (Dict.get "error" d) as [err|]; eexists;
      (split; [reflexivity|]); (split; [reflexivity|]); simpl;
      (split; [reflexivity|]); split; intros; try reflexivity; discriminate.
Qed.

Lemma api_rates_always_200_index_500_on_error_witness :
  (exists data w',
      api_rates (outage 1000) (init_world None None)
      = (Returned {| body_of := Json data; status := 200 |}, w'))
  /\ (exists resp w',
         index (outage 1000) (init_world None None) = (Returned resp, w')
         /\ status resp = 500%Z).
Proof.
  destruct (api_rates_always_200_index_500_on_error
              (outage 1000) (init_world None None)) as [H1 H2].
  split.
  - do 2 eexists. apply H1. vm_compute. reflexivity.
  - destruct (H2 _ _ (surjective_pairing _)) as [d [resp [Hd [Hi [Hs _]]]]].
    exists resp. eexists. split; [exact Hi|].
    rewrite Hs. injection Hd as <-. reflexivity.
Defined.

(** ** After the first successful fetch *)

Lemma populated_returns_snapshot e w data :
  populated w = true ->
  fst (get_exchange_rates e w) = Returned data ->
  exists d, data = Some d /\ is_snapshot d = true.
Proof.
  unfold populated. intros Hp.
  pose proof (get_exchange_rates_course e w) as Hc.
  destruct (get_exchange_rates e w) as [r w']. simpl in *. intros ->.
  inversion Hc; subst.
  - destruct (cached_data (crypto_api w')) as [d|]; [|discriminate].
    exists d. split; [reflexivity|exact Hp].
  - destruct (cached_data (crypto_api w)) as [d|]; [|discriminate].
    simpl. rewrite (is_snapshot_truthy d Hp).
    exists d. split; [reflexivity|exact Hp].
  - eexists. split; [reflexivity|apply is_snapshot_intro].
Qed.

Lemma populated_failure_returns_cache e w :
  populated w = true ->
  upstream_failure (upstream_reply e) = true ->
  fst (get_exchange_rates e w) = Returned (cached_data (crypto_api w)).
Proof.
  unfold populated. intros Hp Hu.
  destruct (fresh e w) eqn:Hf.
  - rewrite (get_exchange_rates_hit e w Hf). reflexivity.
  - destruct (get_exchange_rates_failure e w Hf Hu) as [x [_ ->]]. simpl.
    destruct (cached_data (crypto_api w)) as [d|]; [|discriminate].
    simpl. rewrite (is_snapshot_truthy d Hp). reflexivity.
Qed.

Lemma handler_world e w :
  snd (index e w) = snd (get_exchange_rates e (counted "GET" "/" w))
  /\ snd (api_rates e w)
     = snd (get_exchange_rates e (counted "GET" "/api/rates" w))
  /\ snd (health_check e w)
     = snd (get_exchange_rates e (counted "GET" "/health" w)).
Proof.
  rewrite index_unfold, api_rates_unfold, health_check_unfold.
  repeat split.
  - destruct (get_exchange_rates e (counted "GET" "/" w)) as [[[d|]|x] w'];
      try reflexivity.
    destruct (Dict.get "error" d); reflexivity.
  - destruct (get_exchange_rates e (counted "GET" "/api/rates" w))
      as [[d|x] w']; reflexivity.
  - destruct (get_exchange_rates e (counted "GET" "/health" w))
      as [[[d|]|x] w']; reflexivity.
Qed.

Lemma populated_step w w' : step w w' -> populated w = true -> populated w' = true.
Proof.
  intros Hs Hp. destruct Hs as [e w|e w|e w|e w].
  - apply populated_get. exact Hp.
  - rewrite (proj1 (handler_world e w)). apply populated_get. exact Hp.
  - rewrite (proj1 (proj2 (handler_world e w))). apply populated_get. exact Hp.
  - rewrite (proj2 (proj2 (handler_world e w))). apply populated_get. exact Hp.
Qed.

Lemma populated_steps w w' :
  steps w w' -> populated w = true -> populated w' = true.
Proof.
  induction 1 as [w|w1 w2 w3 H12 H23 IH]; intros Hp; [exact Hp|].
  apply IH. exact (populated_step w1 w2 H12 Hp).
Qed.

Lemma cache_inv_steps w w' :
  steps w w' -> cache_inv w = true -> cache_inv w' = true.
Proof.
  induction 1 as [w|w1 w2 w3 H12 H23 IH]; intros Hp; [exact Hp|].
  apply IH. destruct H12 as [e w|e w|e w|e w].
  - apply cache_inv_get. exact Hp.
  - rewrite (proj1 (handler_world e w)). apply cache_inv_get. exact Hp.
  - rewrite (proj1 (proj2 (handler_world e w))). apply cache_inv_get. exact Hp.
  - rewrite (proj2 (proj2 (handler_world e w))). apply cache_inv_get. exact Hp.
Qed.

(** The invariant holds in every world the process reaches. *)
Lemma cache_inv_reachable a b w :
  steps (init_world a b) w -> cache_inv w = true.
Proof. intros H. apply (cache_inv_steps _ _ H). reflexivity. Qed.

Lemma health_check_populated e w :
  populated w = true ->
  exists resp,
    fst (health_check e w) = Returned resp
    /\ reported_status resp <> Some (PStr "degraded")
    /\ (upstream_failure (upstream_reply e) = true ->
        status resp = 200%Z /\ reported_status resp = Some (PStr "healthy")).
Proof.
  intros Hp.
  assert (Hp' : populated (counted "GET" "/health" w) = true) by exact Hp.
  rewrite health_check_unfold.
  pose proof (populated_returns_snapshot e (counted "GET" "/health" w)) as Hr.
  pose proof (populated_failure_returns_cache e (counted "GET" "/health" w) Hp')
    as Hfail.
  destruct (get_exchange_rates e (counted "GET" "/health" w)) as [[data|x] w'];
    simpl in Hr, Hfail.
  - destruct (Hr data Hp' eq_refl) as [d [-> Hs]].
    rewrite (is_snapshot_no_error d Hs). simpl.
    eexists. split; [reflexivity|]. split; [discriminate|].
    intros _. split; reflexivity.
  - eexists. split; [reflexivity|]. split; [discriminate|].
    intros Hu. specialize (Hfail Hu). discriminate.
Qed.

(** C10. After a call that fetched and stored a snapshot, and whatever
    requests were served since, no call of [get_exchange_rates] returns a
    dict with an 'error' key, and /health never reports "degraded"; while
    the fetches fail, the call returns the cached snapshot and /health
    answers 200 with status "healthy". *)
Theorem no_error_dict_after_first_success :
  forall e0 w0 r0,
    fresh e0 w0 = false ->
    upstream_failure (upstream_reply e0) = false ->
    fst (get_exchange_rates e0 w0) = Returned r0 ->
    forall w,
      steps (snd (get_exchange_rates e0 w0)) w ->
      forall e,
        (forall d,
            fst (get_exchange_rates e w) = Returned (Some d) ->
            Dict.contains "error" d = false)
        /\ (exists resp,
               fst (health_check e w) = Returned resp
               /\ reported_status resp <> Some (PStr "degraded"))
        /\ (upstream_failure (upstream_reply e) = true ->
            (exists d,
                cached_data (crypto_api w) = Some d
                /\ is_snapshot d = true
                /\ fst (get_exchange_rates e w) = Returned (Some d))
            /\ exists resp,
                fst (health_check e w) = Returned resp
                /\ status resp = 200%Z
                /\ reported_status resp = Some (PStr "healthy")).
Proof.
  intros e0 w0 r0 Hf Hu Hr w Hsteps e.
  assert (Hp0 : populated (snd (get_exchange_rates e0 w0)) = true).
  { pose proof (get_exchange_rates_course e0 w0) as Hc.
    destruct (get_exchange_rates e0 w0) as [r w1]. simpl in *. subst r.
    inversion Hc; subst; try congruence.
    unfold populated. simpl. apply Z.eqb_refl. }
  pose proof (populated_steps _ _ Hsteps Hp0) as Hp.
  destruct (health_check_populated e w Hp) as [resp [Hh [Hd Hok]]].
  split; [|split].
  - intros d Hg.
    destruct (populated_returns_snapshot e w _ Hp Hg) as [d' [[= <-] Hs]].
    apply is_snapshot_no_error. exact Hs.
  - exists resp. split; assumption.
  - intros Hfail. split.
    + rewrite (populated_failure_returns_cache e w Hp Hfail).
      unfold populated in Hp.
      destruct (cached_data (crypto_api w)) as [d|]; [|discriminate].
      exists d. repeat split. exact Hp.
    + exists resp. destruct (Hok Hfail) as [H1 H2]. repeat split; assumption.
Qed.

Lemma no_error_dict_after_first_success_witness :
  (exists d,
      cached_data
        (crypto_api (snd (health_check (outage 5000)
                            (snd (get_exchange_rates (outage 4000) warm)))))
      = Some d
      /\ fst (get_exchange_rates (outage 6000)
                (snd (health_check (outage 5000)
                        (snd (get_exchange_rates (outage 4000) warm)))))
         = Returned (Some d))
  /\ exists resp,
      fst (health_check (outage 6000)
             (snd (health_check (outage 5000)
                     (snd (get_exchange_rates (outage 4000) warm)))))
      = Returned resp
      /\ status resp = 200%Z
      /\ reported_status resp = Some (PStr "healthy").
Proof.
  destruct (no_error_dict_after_first_success
              noon (init_world None None) (Some noon_snapshot)
              eq_refl eq_refl ltac:(vm_compute; reflexivity)
              (snd (health_check (outage 5000)
                      (snd (get_exchange_rates (outage 4000) warm))))
              (steps_cons _ _ _ (step_get (outage 4000) warm)
                 (steps_cons _ _ _ (step_health (outage 5000) _)
                    (steps_refl _)))
              (outage 6000))
    as [_ [_ H]].
  destruct (H eq_refl) as [[d [Hd [_ Hg]]] Hh].
  split; [exists d; split; assumption | exact Hh].
Defined.


(** * Further properties *)

(** ** What a call returns, raises and changes *)

(** X1. In a state whose cache is empty or holds a snapshot, a call that
    returns gives a dict, never None: either a snapshot without an 'error'
    key, which is then the content of the cache, or the one-key dict
    {'error': message}, and then the fetch failed and the cache was empty
    and stays empty. *)
Theorem result_is_cached_snapshot_or_error_dict :
  forall e w data,
    cache_inv w = true ->
    fst (get_exchange_rates e w) = Returned data ->
    exists d,
      data = Some d
      /\ ((is_snapshot d = true
           /\ Dict.contains "error" d = false
           /\ cached_data (crypto_api (snd (get_exchange_rates e w))) = Some d)
          \/ (exists msg,
                 d = [("error", PStr msg)]
                 /\ upstream_failure (upstream_reply e) = true
                 /\ cached_data (crypto_api w) = None
                 /\ cached_data (crypto_api (snd (get_exchange_rates e w)))
                    = None)).
Proof.
  intros e w data Hinv.
  pose proof (get_exchange_rates_course e w) as Hc.
  destruct (get_exchange_rates e w) as [r w']. simpl in *. intros ->.
  unfold cache_inv in Hinv. inversion Hc; subst.
  - unfold fresh in *.
    destruct (cached_data (crypto_api w')) as [d|] eqn:Hd; [|discriminate].
    exists d. split; [reflexivity|]. left.
    split; [exact Hinv|]. split; [apply is_snapshot_no_error; exact Hinv|].
    reflexivity.
  - simpl. destruct (cached_data (crypto_api w)) as [d|] eqn:Hd; simpl.
    + rewrite (is_snapshot_truthy d Hinv). exists d. split; [reflexivity|].
      left. split; [exact Hinv|].
      split; [apply is_snapshot_no_error; exact Hinv|reflexivity].
    + eexists. split; [reflexivity|]. right. eexists.
      split; [reflexivity|]. repeat split; assumption.
  - eexists. split; [reflexivity|]. left.
    split; [apply is_snapshot_intro|].
    split; [apply is_snapshot_no_error, is_snapshot_intro|reflexivity].
Qed.

Lemma result_is_cached_snapshot_or_error_dict_witness :
  exists d,
    Some [("error",
           PStr "Unable to fetch exchange rates: Connection refused")] = Some d
    /\ ((is_snapshot d = true
         /\ Dict.contains "error" d = false
         /\ cached_data
              (crypto_api (snd (get_exchange_rates (outage 1000)
                                  (init_world None None)))) = Some d)
        \/ (exists msg,
               d = [("error", PStr msg)]
               /\ upstream_failure (upstream_reply (outage 1000)) = true
               /\ cached_data (crypto_api (init_world None None)) = None
               /\ cached_data
                    (crypto_api (snd (get_exchange_rates (outage 1000)
                                        (init_world None None)))) = None)).
Proof.
  apply (result_is_cached_snapshot_or_error_dict
           (outage 1000) (init_world None None)); reflexivity.
Defined.

(** X2. An exception that leaves [get_exchange_rates] is never a
    RequestException, it leaves only on a cache miss, and the call has
    then written nothing: cached_data, last_fetch, the API_CALLS counters
    and REQUEST_COUNT are as before the call. *)
Theorem escaping_exception_leaves_the_state_untouched :
  forall e w x,
    fst (get_exchange_rates e w) = Raised x ->
    is_RequestException x = false
    /\ fresh e w = false
    /\ crypto_api (snd (get_exchange_rates e w)) = crypto_api w
    /\ API_CALLS (snd (get_exchange_rates e w)) = API_CALLS w
    /\ REQUEST_COUNT (snd (get_exchange_rates e w)) = REQUEST_COUNT w.
Proof.
  intros e w x Hx.
  pose proof (get_exchange_rates_course e w) as Hc.
  destruct (get_exchange_rates e w) as [r w']. simpl in *. subst r.
  inversion Hc; subst. repeat split; assumption.
Qed.

Lemma escaping_exception_leaves_the_state_untouched_witness :
  fresh (malformed 2000) warm = false
  /\ crypto_api (snd (get_exchange_rates (malformed 2000) warm))
     = crypto_api warm.
Proof.
  destruct (escaping_exception_leaves_the_state_untouched
              (malformed 2000) warm
              (ValueError "Invalid API response: missing 'rates' field")
              ltac:(vm_compute; reflexivity)) as [_ [H2 [H3 _]]].
  split; assumption.
Defined.

(** X3. A 'rates' value that is not a mapping (null, a boolean, a number, a
    string) makes [.items()] fail: on a cache miss with such a body the
    AttributeError leaves [get_exchange_rates], after the request and with
    nothing else changed. *)
Theorem rates_not_a_mapping_raises_attribute_error :
  forall e w c reason j v,
    fresh e w = false ->
    upstream_reply e = Response c reason j ->
    ((400 <=? c) && (c <? 600))%Z = false ->
    Dict.get "rates" j = Some v ->
    (forall entries, v <> JRates entries) ->
    exists msg,
      get_exchange_rates e w = (Raised (AttributeError msg), after_request w).
Proof.
  intros e w c reason j v Hf Hr Hc Hj Hv.
  assert (Hu : upstream_failure (upstream_reply e) = false)
    by (rewrite Hr; exact Hc).
  exists ("'" ++ type_name v ++ "' object has no attribute 'items'").
  apply (get_exchange_rates_propagates e w c reason j); try assumption.
  - unfold process_rates_data. rewrite Hj.
    destruct v; try reflexivity. exfalso. exact (Hv entries eq_refl).
  - reflexivity.
Qed.

Lemma rates_not_a_mapping_raises_attribute_error_witness :
  exists msg,
    get_exchange_rates (replying 2000 200 [("rates", JNull)]) warm
    = (Raised (AttributeError msg), after_request warm).
Proof.
  apply (rates_not_a_mapping_raises_attribute_error
           (replying 2000 200 [("rates", JNull)]) warm
           200%Z "OK" [("rates", JNull)] JNull);
    try (vm_compute; reflexivity).
  intros entries. discriminate.
Defined.

(** ** Requests and counters *)

(** X4. One call sends no request on a cache hit and exactly one on a
    miss; it never retries.  The two API_CALLS counters together grow by
    at most what was sent, and neither ever decreases. *)
Theorem one_request_per_miss_none_per_hit :
  forall e w,
    let w' := snd (get_exchange_rates e w) in
    (fresh e w = true -> w' = w)
    /\ (fresh e w = false -> requests_sent w' = S (requests_sent w))
    /\ (calls_success (API_CALLS w) <= calls_success (API_CALLS w'))%nat
    /\ (calls_error (API_CALLS w) <= calls_error (API_CALLS w'))%nat
    /\ (calls_success (API_CALLS w') + calls_error (API_CALLS w')
        + requests_sent w
        <= calls_success (API_CALLS w) + calls_error (API_CALLS w)
           + requests_sent w')%nat
    /\ REQUEST_COUNT w' = REQUEST_COUNT w.
Proof.
  intros e w. cbv zeta.
  pose proof (get_exchange_rates_course e w) as Hc.
  destruct (get_exchange_rates e w) as [r w']. simpl in *.
  inversion Hc; subst; simpl;
    (split; [intros; congruence || reflexivity|]);
    (split; [intros; congruence || reflexivity|]);
    repeat split; lia.
Qed.

Lemma accounting_get e w :
  (calls_success (API_CALLS w) + calls_error (API_CALLS w)
   <= requests_sent w)%nat ->
  (calls_success (API_CALLS (snd (get_exchange_rates e w)))
   + calls_error (API_CALLS (snd (get_exchange_rates e w)))
   <= requests_sent (snd (get_exchange_rates e w)))%nat.
Proof.
  intros H. pose proof (get_exchange_rates_course e w) as Hc.
  destruct (get_exchange_rates e w) as [r w']. simpl in *.
  inversion Hc; subst; simpl; lia.
Qed.

(** X5. However many requests the process has served since its start, the
    API_CALLS counters never count more than the requests sent to the
    upstream: success plus error is at most the number of requests (the
    difference being the calls that ended in an exception). *)
Theorem api_calls_never_exceed_requests_sent :
  forall a b w,
    steps (init_world a b) w ->
    (calls_success (API_CALLS w) + calls_error (API_CALLS w)
     <= requests_sent w)%nat.
Proof.
  intros a b w H.
  assert (Hgen : forall w1 w2,
             steps w1 w2 ->
             (calls_success (API_CALLS w1) + calls_error (API_CALLS w1)
              <= requests_sent w1)%nat ->
             (calls_success (API_CALLS w2) + calls_error (API_CALLS w2)
              <= requests_sent w2)%nat).
  { induction 1 as [w0|w1 w2 w3 H12 H23 IH]; intros Hle; [exact Hle|].
    apply IH. destruct H12 as [e w0|e w0|e w0|e w0].
    - apply accounting_get. exact Hle.
    - rewrite (proj1 (handler_world e w0)). apply accounting_get. exact Hle.
    - rewrite (proj1 (proj2 (handler_world e w0))).
      apply accounting_get. exact Hle.
    - rewrite (proj2 (proj2 (handler_world e w0))).
      apply accounting_get. exact Hle. }
  apply (Hgen _ _ H). simpl. lia.
Qed.

Lemma api_calls_never_exceed_requests_sent_witness :
  (calls_success (API_CALLS (snd (index (malformed 3000)
                                    (snd (api_rates (outage 2000) warm)))))
   + calls_error (API_CALLS (snd (index (malformed 3000)
                                    (snd (api_rates (outage 2000) warm)))))
   <= requests_sent (snd (index (malformed 3000)
                            (snd (api_rates (outage 2000) warm)))))%nat.
Proof.
  apply (api_calls_never_exceed_requests_sent None None).
  apply (steps_cons _ _ _ (step_get noon (init_world None None))).
  apply (steps_cons _ _ _ (step_api_rates (outage 2000) warm)).
  apply (steps_cons _ _ _ (step_index (malformed 3000) _)).
  apply steps_refl.
Defined.

(** X6. A call never changes base_url, timeout or cache_duration.  It
    either leaves cached_data and last_fetch as they are, or replaces both
    at once: cached_data by a new snapshot and last_fetch by the time read
    at the start of the call, and then it counts one success. *)
Theorem cache_and_last_fetch_change_together :
  forall e w,
    let a := crypto_api w in
    let w' := snd (get_exchange_rates e w) in
    let a' := crypto_api w' in
    base_url a' = base_url a
    /\ timeout a' = timeout a
    /\ cache_duration a' = cache_duration a
    /\ ((cached_data a' = cached_data a
         /\ last_fetch a' = last_fetch a
         /\ calls_success (API_CALLS w') = calls_success (API_CALLS w))
        \/ (exists d,
               is_snapshot d = true
               /\ fst (get_exchange_rates e w) = Returned (Some d)
               /\ cached_data a' = Some d
               /\ last_fetch a' = time_time e
               /\ calls_success (API_CALLS w')
                  = S (calls_success (API_CALLS w)))).
Proof.
  intros e w. cbv zeta.
  pose proof (get_exchange_rates_course e w) as Hc.
  destruct (get_exchange_rates e w) as [r w']. simpl in *.
  inversion Hc; subst; simpl; repeat (split; [reflexivity|]);
    try (left; repeat split; reflexivity).
  right. eexists. split; [apply is_snapshot_intro|]. repeat split.
Qed.

(** X7. With a cache_duration of zero or less nothing is served from the
    cache: every call made at or after last_fetch sends a request. *)
Theorem non_positive_cache_duration_disables_cache :
  forall e w,
    (cache_duration (crypto_api w) <= 0)%Z ->
    (last_fetch (crypto_api w) <= time_time e)%Q ->
    fresh e w = false
    /\ requests_sent (snd (get_exchange_rates e w)) = S (requests_sent w).
Proof.
  intros e w Hd Ht.
  assert (Hf : fresh e w = false).
  { unfold fresh. apply andb_false_iff. right. apply Qltb_ge.
    assert (Hq : (inject_Z (cache_duration (crypto_api w)) <= inject_Z 0)%Q)
      by (rewrite <- Zle_Qle; exact Hd).
    change (inject_Z 0) with 0%Q in Hq. lra. }
  split; [exact Hf|]. apply miss_sends_one_request. exact Hf.
Qed.

Lemma non_positive_cache_duration_disables_cache_witness :
  requests_sent
    (snd (get_exchange_rates (outage 1000)
            (snd (get_exchange_rates noon (init_world None (Some 0%Z))))))
  = S (requests_sent (snd (get_exchange_rates noon (init_world None (Some 0%Z))))).
Proof.
  apply (non_positive_cache_duration_disables_cache
           (outage 1000)
           (snd (get_exchange_rates noon (init_world None (Some 0%Z))))).
  - vm_compute. discriminate.
  - vm_compute. discriminate.
Defined.

(** X8. While cached_data is None (or an empty dict, which Python treats
    as false), the time plays no part: every call sends a request. *)
Theorem empty_cache_always_fetches :
  forall e w,
    truthy (cached_data (crypto_api w)) = false ->
    fresh e w = false
    /\ requests_sent (snd (get_exchange_rates e w)) = S (requests_sent w).
Proof.
  intros e w H.
  assert (Hf : fresh e w = false) by (unfold fresh; rewrite H; reflexivity).
  split; [exact Hf|]. apply miss_sends_one_request. exact Hf.
Qed.

Lemma empty_cache_always_fetches_witness :
  requests_sent (snd (get_exchange_rates (outage 0) (init_world None None)))
  = 1%nat.
Proof.
  apply (empty_cache_always_fetches (outage 0) (init_world None None)).
  reflexivity.
Defined.

(** X9. Nothing evicts the cache: once cached_data holds a snapshot it
    holds a snapshot after every further request, whatever the handler and
    whatever the upstream does. *)
Theorem cache_is_never_cleared :
  forall w w' d,
    steps w w' ->
    cached_data (crypto_api w) = Some d ->
    is_snapshot d = true ->
    exists d',
      cached_data (crypto_api w') = Some d' /\ is_snapshot d' = true.
Proof.
  intros w w' d Hs Hd Hsnap.
  assert (Hp : populated w = true) by (unfold populated; rewrite Hd; exact Hsnap).
  pose proof (populated_steps w w' Hs Hp) as Hp'. unfold populated in Hp'.
  destruct (cached_data (crypto_api w')) as [d'|]; [|discriminate].
  exists d'. split; [reflexivity|exact Hp'].
Qed.

Lemma cache_is_never_cleared_witness :
  exists d',
    cached_data
      (crypto_api (snd (health_check (malformed 3000)
                          (snd (get_exchange_rates (outage 2000) warm)))))
    = Some d'
    /\ is_snapshot d' = true.
Proof.
  apply (cache_is_never_cleared warm _ noon_snapshot).
  - apply (steps_cons _ _ _ (step_get (outage 2000) warm)).
    apply (steps_cons _ _ _ (step_health (malformed 3000) _)).
    apply steps_refl.
  - vm_compute. reflexivity.
  - vm_compute. reflexivity.
Defined.

(** ** More on the transform *)

Lemma keys_transformed entries :
  Dict.keys (transformed entries) = Dict.keys entries.
Proof.
  unfold Dict.keys, transformed. rewrite map_map. reflexivity.
Qed.

Lemma wf_sorted_transformed entries :
  Dict.wf entries = true ->
  Dict.wf (sorted_reverse by_value (transformed entries)) = true.
Proof.
  intros Hwf. apply (DictFacts.wf_Permutation (transformed entries)).
  - apply Permutation_sym, sorted_reverse_perm.
  - unfold transformed. rewrite DictFacts.wf_map. exact Hwf.
Qed.

(** X10. The transform neither drops nor invents a currency: the codes of
    the result are the codes of the upstream mapping, each once, in some
    order; a code is in the result exactly when it is in the mapping; and
    total_currencies is their number. *)
Theorem transform_keeps_the_currency_codes :
  forall raw entries e w,
    Dict.get "rates" raw = Some (JRates entries) ->
    Dict.wf entries = true ->
    exists sorted_rates,
      process_rates_data raw e w
      = (Returned [("rates", PRates sorted_rates);
                   ("last_updated", PStr (datetime_now e));
                   ("total_currencies", PInt (Dict.len sorted_rates))], w)
      /\ Permutation (Dict.keys sorted_rates) (Dict.keys entries)
      /\ Dict.wf sorted_rates = true
      /\ Dict.len sorted_rates = Dict.len entries
      /\ forall code,
          Dict.contains code sorted_rates = Dict.contains code entries.
Proof.
  intros raw entries e w Hr Hwf.
  exists (sorted_reverse by_value (transformed entries)).
  assert (Hk : Permutation
                 (Dict.keys (sorted_reverse by_value (transformed entries)))
                 (Dict.keys entries)).
  { rewrite <- keys_transformed. unfold Dict.keys.
    apply Permutation_map, sorted_reverse_perm. }
  split; [exact (process_rates_data_ok raw entries e w Hr Hwf)|].
  split; [exact Hk|]. split; [exact (wf_sorted_transformed entries Hwf)|].
  split.
  - unfold Dict.len. rewrite sorted_reverse_length. unfold transformed.
    rewrite length_map. reflexivity.
  - intros code. apply eq_true_iff_eq.
    rewrite !DictFacts.contains_In. split; intros Hin.
    + exact (Permutation_in _ Hk Hin).
    + exact (Permutation_in _ (Permutation_sym Hk) Hin).
Qed.

Lemma transform_keeps_the_currency_codes_witness :
  exists sorted_rates,
    process_rates_data tie_payload noon (init_world None None)
    = (Returned [("rates", PRates sorted_rates);
                 ("last_updated", PStr "2024-01-01T12:00:00");
                 ("total_currencies", PInt (Dict.len sorted_rates))],
       init_world None None)
    /\ Permutation (Dict.keys sorted_rates) ["aaa"; "bbb"; "ccc"; "ddd"].
Proof.
  destruct (transform_keeps_the_currency_codes
              tie_payload tie_entries noon (init_world None None)
              eq_refl eq_refl) as [sr [Hp [Hk _]]].
  exists sr. split; [exact Hp | exact Hk].
Defined.

(** X11. When the upstream already lists its entries by descending value
    (absent values counting as 0), the transform keeps the upstream's
    order: the result's rates are the transformed entries as they came. *)
Theorem descending_upstream_order_is_kept :
  forall raw entries e w,
    Dict.get "rates" raw = Some (JRates entries) ->
    Dict.wf entries = true ->
    StronglySorted (fun a b => (value (snd b) <= value (snd a))%Q)
                   (transformed entries) ->
    process_rates_data raw e w
    = (Returned [("rates", PRates (transformed entries));
                 ("last_updated", PStr (datetime_now e));
                 ("total_currencies", PInt (Dict.len entries))], w).
Proof.
  intros raw entries e w Hr Hwf Hs.
  rewrite (process_rates_data_ok raw entries e w Hr Hwf). unfold snapshot_of.
  rewrite <- (sorted_reverse_unique by_value (transformed entries)
                                    (transformed entries) Hs (fun v => eq_refl)).
  unfold Dict.len, transformed. rewrite length_map. reflexivity.
Qed.

Lemma descending_upstream_order_is_kept_witness :
  process_rates_data descending_reply noon (init_world None None)
  = (Returned [("rates", PRates (transformed descending_entries));
               ("last_updated", PStr "2024-01-01T12:00:00");
               ("total_currencies", PInt 4)], init_world None None).
Proof.
  apply (descending_upstream_order_is_kept
           descending_reply descending_entries noon (init_world None None)).
  - reflexivity.
  - reflexivity.
  - repeat constructor; vm_compute; discriminate.
Defined.

(** X12. A body whose 'rates' mapping is empty is a success like any
    other: the call stores and returns a snapshot with no rates and
    total_currencies 0.  That dict is not empty, so it counts as cached
    data in the test of line 48, and every later call that passes the
    test is served it from the cache without a request. *)
Theorem empty_rates_mapping_is_cached :
  forall e w c reason j,
    fresh e w = false ->
    upstream_reply e = Response c reason j ->
    ((400 <=? c) && (c <? 600))%Z = false ->
    Dict.get "rates" j = Some (JRates []) ->
    let d := [("rates", PRates []);
              ("last_updated", PStr (datetime_now e));
              ("total_currencies", PInt 0)] in
    let w' := snd (get_exchange_rates e w) in
    fst (get_exchange_rates e w) = Returned (Some d)
    /\ cached_data (crypto_api w') = Some d
    /\ truthy (cached_data (crypto_api w')) = true
    /\ forall e2,
        fresh e2 w' = true ->
        get_exchange_rates e2 w' = (Returned (Some d), w').
Proof.
  intros e w c reason j Hf Hr Hc Hj. cbv zeta.
  assert (Hu : upstream_failure (upstream_reply e) = false)
    by (rewrite Hr; exact Hc).
  rewrite (get_exchange_rates_success e w c reason j [] Hf Hr Hu Hj eq_refl).
  simpl fst. simpl snd. change (snapshot_of (datetime_now e) [])
    with [("rates", PRates []); ("last_updated", PStr (datetime_now e));
          ("total_currencies", PInt 0)].
  split; [reflexivity|]. split; [reflexivity|]. split; [reflexivity|].
  intros e2 Hf2. rewrite (get_exchange_rates_hit e2 _ Hf2). reflexivity.
Qed.

Lemma empty_rates_mapping_is_cached_witness :
  fst (get_exchange_rates (replying 1000 200 [("rates", JRates [])])
         (init_world None None))
  = Returned (Some [("rates", PRates []);
                    ("last_updated", PStr "2024-01-01T12:30:00");
                    ("total_currencies", PInt 0)])
  /\ requests_sent
       (snd (get_exchange_rates (outage 1100)
               (snd (get_exchange_rates
                       (replying 1000 200 [("rates", JRates [])])
                       (init_world None None)))))
     = 1%nat.
Proof.
  destruct (empty_rates_mapping_is_cached
              (replying 1000 200 [("rates", JRates [])])
              (init_world None None) 200%Z "OK" [("rates", JRates [])]
              eq_refl eq_refl eq_refl eq_refl) as [H1 [_ [_ H4]]].
  split; [exact H1|].
  rewrite (H4 (outage 1100) ltac:(vm_compute; reflexivity)). reflexivity.
Defined.

(** ** The handlers, end to end *)

(** X13. [health_check] never raises.  It answers 200 when the call
    returns, with status "healthy" for a result without an 'error' key
    and "degraded" for one with it; it answers 500 with status
    "unhealthy" and the exception's text exactly when the call raises. *)
Theorem health_check_never_raises :
  forall e w,
    exists resp w',
      health_check e w = (Returned resp, w')
      /\ ((exists d,
              get_exchange_rates e (counted "GET" "/health" w)
              = (Returned (Some d), w')
              /\ status resp = 200%Z
              /\ reported_status resp
                 = Some (PStr (if Dict.contains "error" d
                               then "degraded" else "healthy")))
          \/ (exists x,
                 get_exchange_rates e (counted "GET" "/health" w)
                 = (Raised x, w')
                 /\ status resp = 500%Z
                 /\ body_of resp
                    = Json (Some [("status", PStr "unhealthy");
                                  ("error", PStr (str x));
                                  ("timestamp", PStr (handler_now e))]))).
Proof.
  intros e w. rewrite health_check_unfold.
  pose proof (get_exchange_rates_returns_dict e (counted "GET" "/health" w))
    as Hd.
  destruct (get_exchange_rates e (counted "GET" "/health" w))
    as [[data|x] w'] eqn:Hg; simpl in Hd.
  - destruct (Hd data eq_refl) as [d ->].
    do 2 eexists. split; [reflexivity|]. left. exists d.
    split; [reflexivity|]. split; [reflexivity|].
    unfold reported_status. simpl. destruct (Dict.contains "error" d); reflexivity.
  - do 2 eexists. split; [reflexivity|]. right. exists x.
    repeat split.
Qed.

(** X14. With an empty cache and a failing fetch the three handlers
    disagree on the status: / answers 500 with the error page showing the
    message, /api/rates answers 200 with the error dict as JSON, /health
    answers 200 with status "degraded".  Each of them leaves the cache
    empty. *)
Theorem cold_failure_seen_through_the_handlers :
  forall e w,
    cached_data (crypto_api w) = None ->
    upstream_failure (upstream_reply e) = true ->
    (exists msg,
        fst (index e w)
        = Returned {| body_of :=
                        Page_error
                          (PStr ("Unable to fetch exchange rates: " ++ msg));
                      status := 500 |})
    /\ (exists msg,
           fst (api_rates e w)
           = Returned
               {| body_of :=
                    Json (Some [("error",
                                 PStr ("Unable to fetch exchange rates: "
                                       ++ msg))]);
                  status := 200 |})
    /\ (exists resp,
           fst (health_check e w) = Returned resp
           /\ status resp = 200%Z
           /\ reported_status resp = Some (PStr "degraded"))
    /\ cached_data (crypto_api (snd (index e w))) = None
    /\ cached_data (crypto_api (snd (api_rates e w))) = None
    /\ cached_data (crypto_api (snd (health_check e w))) = None.
Proof.
  intros e w Hd Hu.
  assert (Hcold : forall m ep,
             exists x,
               get_exchange_rates e (counted m ep w)
               = (Returned (Some [("error",
                                   PStr ("Unable to fetch exchange rates: "
                                         ++ str x))]),
                  after_error (counted m ep w))).
  { intros m ep.
    assert (Hf : fresh e (counted m ep w) = false)
      by (unfold fresh; simpl; rewrite Hd; reflexivity).
    destruct (get_exchange_rates_failure e (counted m ep w) Hf Hu)
      as [x [_ Hg]].
    exists x. rewrite Hg. simpl. rewrite Hd. reflexivity. }
  destruct (Hcold "GET" "/") as [x1 H1].
  destruct (Hcold "GET" "/api/rates") as [x2 H2].
  destruct (Hcold "GET" "/health") as [x3 H3].
  rewrite index_unfold, api_rates_unfold, health_check_unfold, H1, H2, H3.
  simpl. split; [exists (str x1); reflexivity|].
  split; [exists (str x2); reflexivity|].
  split; [eexists; repeat split|].
  repeat split; exact Hd.
Qed.

Lemma cold_failure_seen_through_the_handlers_witness :
  (exists msg,
      fst (index (outage 1000) (init_world None None))
      = Returned {| body_of :=
                      Page_error
                        (PStr ("Unable to fetch exchange rates: " ++ msg));
                    status := 500 |})
  /\ exists resp,
      fst (health_check (outage 1000) (init_world None None)) = Returned resp
      /\ status resp = 200%Z
      /\ reported_status resp = Some (PStr "degraded").
Proof.
  destruct (cold_failure_seen_through_the_handlers
              (outage 1000) (init_world None None) eq_refl eq_refl)
    as [H1 [_ [H3 _]]].
  split; [exact H1 | exact H3].
Defined.

(** X15. A body without 'rates' on a cache miss reaches the user as a
    server error on every page: the ValueError leaves [index] and
    [api_rates], so Flask answers 500 with the generic error page on /
    and on /api/rates, and [health_check] catches it and answers 500 with
    status "unhealthy" and the exception's text. *)
Theorem missing_rates_reaches_the_user_as_500 :
  forall e w c reason j,
    fresh e w = false ->
    upstream_reply e = Response c reason j ->
    ((400 <=? c) && (c <? 600))%Z = false ->
    Dict.get "rates" j = None ->
    let boom := ValueError "Invalid API response: missing 'rates' field" in
    let page :=
      {| payload_of := Rendered (Page_error (PStr "Internal server error"));
         http_status := 500 |} in
    fst (index e w) = Raised boom
    /\ fst (api_rates e w) = Raised boom
    /\ fst (dispatch "/" e w) = Returned page
    /\ fst (dispatch "/api/rates" e w) = Returned page
    /\ fst (health_check e w)
       = Returned {| body_of :=
                       Json (Some [("status", PStr "unhealthy");
                                   ("error", PStr (str boom));
                                   ("timestamp", PStr (handler_now e))]);
                     status := 500 |}.
Proof.
  intros e w c reason j Hf Hr Hc Hj. cbv zeta.
  assert (Hu : upstream_failure (upstream_reply e) = false)
    by (rewrite Hr; exact Hc).
  assert (Hg : forall m ep,
             get_exchange_rates e (counted m ep w)
             = (Raised (ValueError "Invalid API response: missing 'rates' field"),
                after_request (counted m ep w))).
  { intros m ep.
    apply (get_exchange_rates_missing_rates e _ c reason j); assumption. }
  assert (Hi : fst (index e w)
               = Raised (ValueError "Invalid API response: missing 'rates' field"))
    by (rewrite index_unfold, Hg; reflexivity).
  assert (Ha : fst (api_rates e w)
               = Raised (ValueError "Invalid API response: missing 'rates' field"))
    by (rewrite api_rates_unfold, Hg; reflexivity).
  split; [exact Hi|]. split; [exact Ha|].
  split; [|split].
  - unfold dispatch, try_except, bind. simpl.
    destruct (index e w) as [[r|x] w1]; simpl in Hi; [discriminate|].
    reflexivity.
  - unfold dispatch, try_except, bind. simpl.
    destruct (api_rates e w) as [[r|x] w1]; simpl in Ha; [discriminate|].
    reflexivity.
  - rewrite health_check_unfold, Hg. reflexivity.
Qed.

Lemma missing_rates_reaches_the_user_as_500_witness :
  fst (dispatch "/api/rates" (malformed 2000) warm)
  = Returned
      {| payload_of := Rendered (Page_error (PStr "Internal server error"));
         http_status := 500 |}.
Proof.
  destruct (missing_rates_reaches_the_user_as_500
              (malformed 2000) warm 200%Z "OK" invalid_response
              ltac:(vm_compute; reflexivity) eq_refl eq_refl eq_refl)
    as [_ [_ [_ [H _]]]].
  exact H.
Defined.

(** ** The request counter *)

Lemma counter_value_inc m ep m0 ep0 c :
  counter_value m ep (counter_inc m0 ep0 c)
  = if String.eqb m m0 && String.eqb ep ep0
    then S (counter_value m ep c)
    else counter_value m ep c.
Proof.
  induction c as [|[[m' ep'] n] c IH]; simpl.
  - destruct (String.eqb m m0 && String.eqb ep ep0); reflexivity.
  - destruct (String.eqb m0 m' && String.eqb ep0 ep') eqn:E0; simpl.
    + apply andb_true_iff in E0 as [Em Ee].
      apply String.eqb_eq in Em. apply String.eqb_eq in Ee. subst m' ep'.
      destruct (String.eqb m m0 && String.eqb ep ep0); reflexivity.
    + rewrite IH.
      destruct (String.eqb m m' && String.eqb ep ep') eqn:E1; [|reflexivity].
      apply andb_true_iff in E1 as [Em Ee].
      apply String.eqb_eq in Em. apply String.eqb_eq in Ee. subst m' ep'.
      assert (Hsw : String.eqb m m0 && String.eqb ep ep0
                    = String.eqb m0 m && String.eqb ep0 ep)
        by (rewrite (String.eqb_sym m m0), (String.eqb_sym ep ep0); reflexivity).
      rewrite Hsw, E0. reflexivity.
Qed.

Lemma get_exchange_rates_request_count e w :
  REQUEST_COUNT (snd (get_exchange_rates e w)) = REQUEST_COUNT w.
Proof.
  pose proof (get_exchange_rates_course e w) as Hc.
  destruct (get_exchange_rates e w) as [r w']. simpl in *.
  inversion Hc; subst; reflexivity.
Qed.

(** X16. Each of [index], [api_rates] and [health_check] adds exactly one
    to the REQUEST_COUNT child of its own endpoint and leaves every other
    child as it was, whether the call inside returns or raises; the
    request is counted before the cache is consulted. *)
Theorem each_handler_counts_its_own_request :
  forall e w m ep,
    counter_value m ep (REQUEST_COUNT (snd (index e w)))
    = (if String.eqb m "GET" && String.eqb ep "/"
       then S (counter_value m ep (REQUEST_COUNT w))
       else counter_value m ep (REQUEST_COUNT w))
    /\ counter_value m ep (REQUEST_COUNT (snd (api_rates e w)))
       = (if String.eqb m "GET" && String.eqb ep "/api/rates"
          then S (counter_value m ep (REQUEST_COUNT w))
          else counter_value m ep (REQUEST_COUNT w))
    /\ counter_value m ep (REQUEST_COUNT (snd (health_check e w)))
       = (if String.eqb m "GET" && String.eqb ep "/health"
          then S (counter_value m ep (REQUEST_COUNT w))
          else counter_value m ep (REQUEST_COUNT w)).
Proof.
  intros e w m ep.
  destruct (handler_world e w) as [-> [-> ->]].
  rewrite !get_exchange_rates_request_count. unfold counted. simpl.
  rewrite !counter_value_inc. repeat split.
Qed.

(** ** The debug switch of [main] *)

Lemma ascii_lower_t c :
  ascii_lower c = "t"%char -> c = "t"%char \/ c = "T"%char.
Proof.
  destruct c as [[] [] [] [] [] [] [] []]; vm_compute; intros H;
    try discriminate; auto.
Qed.

Lemma ascii_lower_r c :
  ascii_lower c = "r"%char -> c = "r"%char \/ c = "R"%char.
Proof.
  destruct c as [[] [] [] [] [] [] [] []]; vm_compute; intros H;
    try discriminate; auto.
Qed.

Lemma ascii_lower_u c :
  ascii_lower c = "u"%char -> c = "u"%char \/ c = "U"%char.
Proof.
  destruct c as [[] [] [] [] [] [] [] []]; vm_compute; intros H;
    try discriminate; auto.
Qed.

Lemma ascii_lower_e c :
  ascii_lower c = "e"%char -> c = "e"%char \/ c = "E"%char.
Proof.
  destruct c as [[] [] [] [] [] [] [] []]; vm_compute; intros H;
    try discriminate; auto.
Qed.

(** X19. [main] switches debug on exactly when FLASK_DEBUG is set to the
    four letters t, r, u, e in any mix of upper and lower case; unset,
    or set to anything else ("1", "yes", "true " with a space), debug is
    off. *)
Theorem debug_only_for_true_in_any_case :
  forall v,
    debug_of v = true
    <-> exists a b c d,
        v = Some (String a (String b (String c (String d EmptyString))))
        /\ (a = "t" \/ a = "T")%char /\ (b = "r" \/ b = "R")%char
        /\ (c = "u" \/ c = "U")%char /\ (d = "e" \/ d = "E")%char.
Proof.
  intros v. unfold debug_of. split.
  - intros H. apply String.eqb_eq in H.
    destruct v as [s|]; [|discriminate]. simpl in H.
    destruct s as [|a [|b [|c [|d [|x s]]]]]; try discriminate.
    simpl in H. injection H as Ha Hb Hc Hd.
    exists a, b, c, d. split; [reflexivity|].
    split; [exact (ascii_lower_t a Ha)|]. split; [exact (ascii_lower_r b Hb)|].
    split; [exact (ascii_lower_u c Hc) | exact (ascii_lower_e d Hd)].
  - intros [a [b [c [d [-> [Ha [Hb [Hc Hd]]]]]]]].
    destruct Ha as [-> | ->], Hb as [-> | ->], Hc as [-> | ->],
             Hd as [-> | ->]; reflexivity.
Qed.

Lemma debug_only_for_true_in_any_case_witness :
  debug_of (Some "True") = true
  /\ debug_of (Some "1") = false
  /\ debug_of None = false.
Proof.
  split; [|split].
  - apply (proj2 (debug_only_for_true_in_any_case (Some "True"))).
    exists "T"%char, "r"%char, "u"%char, "e"%char.
    split; [reflexivity|]. repeat split; auto.
  - destruct (debug_of (Some "1")) eqn:E; [|reflexivity].
    apply (proj1 (debug_only_for_true_in_any_case (Some "1"))) in E.
    destruct E as [a [b [c [d [E _]]]]]. discriminate.
  - destruct (debug_of None) eqn:E; [|reflexivity].
    apply (proj1 (debug_only_for_true_in_any_case None)) in E.
    destruct E as [a [b [c [d [E _]]]]]. discriminate.
Defined.

(** ** The counters are write-only *)

Lemma process_rates_data_pure raw e w :
  process_rates_data raw e w
  = (fst (process_rates_data raw e (init_world None None)), w).
Proof.
  unfold process_rates_data.
  destruct (Dict.get "rates" raw) as [v|]; [destruct v|]; reflexivity.
Qed.

(** X20. What a call returns or raises, and what it does to the cache,
    depends on the client's own fields, the clock and the upstream only:
    two worlds that differ in API_CALLS, REQUEST_COUNT or the number of
    requests sent give the same result and the same new client state. *)
Theorem counters_do_not_influence_the_result :
  forall e w1 w2,
    crypto_api w1 = crypto_api w2 ->
    fst (get_exchange_rates e w1) = fst (get_exchange_rates e w2)
    /\ crypto_api (snd (get_exchange_rates e w1))
       = crypto_api (snd (get_exchange_rates e w2)).
Proof.
  intros e [[u t cd l d] a1 r1 n1] [api2 a2 r2 n2] H. simpl in H. subst api2.
  run_get.
  destruct (truthy d && Qltb (time_time e - l) (inject_Z cd));
    [split; reflexivity|].
  destruct (upstream_reply e) as [msg|msg|c reason j].
  - simpl. destruct (truthy d); split; reflexivity.
  - simpl. destruct (truthy d); split; reflexivity.
  - destruct ((400 <=? c)%Z && (c <? 500)%Z);
      [simpl; destruct (truthy d); split; reflexivity|].
    destruct ((500 <=? c)%Z && (c <? 600)%Z);
      [simpl; destruct (truthy d); split; reflexivity|].
    rewrite (process_rates_data_pure j e
               {| crypto_api := _; API_CALLS := a1; REQUEST_COUNT := r1;
                  requests_sent := S n1 |}).
    rewrite (process_rates_data_pure j e
               {| crypto_api := _; API_CALLS := a2; REQUEST_COUNT := r2;
                  requests_sent := S n2 |}).
    destruct (fst (process_rates_data j e (init_world None None))) as [s|x].
    + split; reflexivity.
    + destruct (is_RequestException x); simpl;
        [destruct (truthy d)|]; split; reflexivity.
Qed.

Lemma counters_do_not_influence_the_result_witness :
  fst (get_exchange_rates afternoon (counted "GET" "/" warm))
  = fst (get_exchange_rates afternoon warm)
  /\ crypto_api (snd (get_exchange_rates afternoon (counted "GET" "/" warm)))
     = crypto_api (snd (get_exchange_rates afternoon warm)).
Proof.
  apply (counters_do_not_influence_the_result
           afternoon (counted "GET" "/" warm) warm).
  reflexivity.
Defined.
